(** * aiographql.client.subscription: GraphQL subscriptions over a websocket

    A shallow embedding of [src/aiographql/client/subscription.py] and the
    properties of its event classification, dispatch, read loop and task
    life cycle.

    Python objects are records, [None] is [JNull], a [dict] is a [gmap] with
    string keys.  Code that can raise returns a [Result]; code that mutates
    the subscription, the websocket or asyncio's tasks passes a [State]. *)

From stdpp Require Import base strings gmap list.

Set Warnings "-register-all".
Local Open Scope string_scope.

(** ** Python values *)

Inductive Json : Type :=
| JNull
| JBool (b : bool)
| JNum (n : Z)
| JStr (s : string)
| JArr (items : list Json)
| JObj (fields : gmap string Json).

(** [d.get(k)]: the value stored under [k], [None] when there is none. *)
Definition dict_get (k : string) (d : gmap string Json) : Json :=
  default JNull (d !! k).

(** [v is None] *)
Definition is_None (v : Json) : bool :=
  match v with JNull => true | _ => false end.

(** [v == s] for a [str] [s]: a string equals only an equal string. *)
Definition eq_str (v : Json) (s : string) : bool :=
  match v with JStr s' => String.eqb s' s | _ => false end.

(** ** Exceptions and results *)

Inductive Exn : Type :=
| CancelledError
| KeyboardInterrupt
| ValueError
| AttributeError
| ConnectionResetError
| ClientConnectionError
| Exception (msg : string).

Inductive Result (A : Type) : Type :=
| Ok (a : A)
| Raise (x : Exn).
Arguments Ok {A} a.
Arguments Raise {A} x.

Definition bindR {A B} (c : Result A) (k : A -> Result B) : Result B :=
  match c with Ok a => k a | Raise x => Raise x end.

(** ** aiographql.client.transaction *)

Module GraphQLRequest.
(** Modelled from the spec: [GraphQLRequest] lives in
    aiographql/client/transaction.py, which is not part of the sources.
    A request has a query text, variable bindings and a header mapping. *)
Record t : Type := {
  query : string;
  variables : gmap string Json;
  headers : gmap string string
}.

(** Modelled from the spec: [GraphQLRequest.payload()] is missing with
    transaction.py.  The full request payload is the [query] together with
    the [variables]. *)
Definition payload (self : t) : Json :=
  JObj {[ "query" := JStr (query self);
          "variables" := JObj (variables self) ]}.
End GraphQLRequest.

Module GraphQLResponse.
(** Modelled from the spec: [GraphQLResponse] lives in
    aiographql/client/transaction.py, which is not part of the sources.
    A response associates a json body with the request it answers. *)
Record t : Type := {
  request : GraphQLRequest.t;
  json : Json
}.
End GraphQLResponse.

(** ** GraphQLSubscriptionEventType *)

Module GraphQLSubscriptionEventType.
Inductive t : Type :=
| CONNECTION_INIT
| CONNECTION_ACK
| CONNECTION_ERROR
| CONNECTION_TERMINATE
| START
| DATA
| ERROR
| COMPLETE
| STOP
| KEEP_ALIVE.

#[global] Instance eq_dec : EqDecision t.
Proof. solve_decision. Defined.

Definition value (k : t) : string :=
  match k with
  | CONNECTION_INIT => "connection_init"
  | CONNECTION_ACK => "connection_ack"
  | CONNECTION_ERROR => "connection_error"
  | CONNECTION_TERMINATE => "connection_terminate"
  | START => "start"
  | DATA => "data"
  | ERROR => "error"
  | COMPLETE => "complete"
  | STOP => "stop"
  | KEEP_ALIVE => "ka"
  end.

(** The members, in definition order. *)
Definition members : list t :=
  [CONNECTION_INIT; CONNECTION_ACK; CONNECTION_ERROR; CONNECTION_TERMINATE;
   START; DATA; ERROR; COMPLETE; STOP; KEEP_ALIVE].

(** [GraphQLSubscriptionEventType(v)]: the member whose value is [v];
    [ValueError] when no member has that value. *)
Definition call (v : Json) : Result t :=
  match List.find (fun k => eq_str v (value k)) members with
  | Some k => Ok k
  | None => Raise ValueError
  end.
End GraphQLSubscriptionEventType.

Abbreviation Kind := GraphQLSubscriptionEventType.t.

(** [k in kinds] for a possibly absent kind [k]. *)
Definition kind_in (k : option Kind) (kinds : list Kind) : bool :=
  match k with
  | Some k' => bool_decide (k' ∈ kinds)
  | None => false
  end.

(** ** GraphQLSubscriptionEvent *)

(** What the [payload] property returns: a raw json value ([None] included)
    or a [GraphQLResponse]. *)
Inductive Payload : Type :=
| Raw (v : Json)
| Response (r : GraphQLResponse.t).

Module GraphQLSubscriptionEvent.
Import GraphQLSubscriptionEventType.

Record t : Type := {
  request : GraphQLRequest.t;
  json : gmap string Json;
  subscription_id : option string
}.

Definition id (self : t) : Json := dict_get "id" (json self).

Definition type (self : t) : Result (option Kind) :=
  match GraphQLSubscriptionEventType.call (dict_get "type" (json self)) with
  | Ok k => Ok (Some k)
  | Raise ValueError => Ok None
  | Raise x => Raise x
  end.

Definition payload (self : t) : Result Payload :=
  let payload := dict_get "payload" (json self) in
  if negb (is_None payload) then
    bindR (type self) (fun k =>
      if kind_in k [DATA; ERROR] then
        Ok (Response {| GraphQLResponse.request := request self;
                        GraphQLResponse.json := payload |})
      else Ok (Raw payload))
  else Ok (Raw JNull).
End GraphQLSubscriptionEvent.

Abbreviation Event := GraphQLSubscriptionEvent.t.

(** ** The websocket and its peer *)

Module WSMsgType.
Inductive t : Type :=
| CONTINUATION | TEXT | BINARY | PING | PONG | CLOSE | CLOSING | CLOSED
| ERROR.

#[global] Instance eq_dec : EqDecision t.
Proof. solve_decision. Defined.
End WSMsgType.

Module WSMessage.
(** A message as the websocket iterator yields it.  [body] is what the
    text decodes to, [None] when it is not json at all. *)
Record t : Type := {
  type : WSMsgType.t;
  body : option Json
}.

(** [msg.json()] *)
Definition json (msg : t) : Result Json :=
  match body msg with
  | Some v => Ok v
  | None => Raise ValueError
  end.
End WSMessage.

(** What the task meets at its next read of the websocket: a message, an
    exception thrown into the task while it waits ([CancelledError] when
    the task is cancelled), or the silent loss of the transport, after
    which writes fail. *)
Inductive Arrival : Type :=
| Deliver (msg : WSMessage.t)
| Interrupt (x : Exn)
| TransportLost.

(** The channel a [ws_connect] opens: whether the connection is made, and
    what arrives on it until the peer closes it. *)
Record Channel : Type := {
  connect : Result unit;
  arrivals : list Arrival
}.

Record ClientSession : Type := {
  ws_connect : string -> Channel
}.

Inductive WsState : Type := WsOpen | WsLost | WsClosed.

(** What callbacks can see and change: the websocket of the session (its
    state and the frames written to it, oldest first) and the payloads the
    caller's own callbacks have recorded.  There is one websocket: the
    model covers the sessions of a subscription one at a time. *)
Record Env : Type := {
  ws_state : WsState;
  sent : list Json;
  journal : list Payload
}.

Definition Action (A : Type) : Type := Env -> Result A * Env.

(** [ws.send_json(data)]: written when the socket is open, otherwise
    [ConnectionResetError]. *)
Definition send_json (data : Json) : Action unit := fun e =>
  match ws_state e with
  | WsOpen =>
      (Ok tt, {| ws_state := ws_state e; sent := sent e ++ [data];
                 journal := journal e |})
  | _ => (Raise ConnectionResetError, e)
  end.

Definition set_ws_state (s : WsState) (e : Env) : Env :=
  {| ws_state := s; sent := sent e; journal := journal e |}.

(** ** cafeteria.asyncio.callbacks *)

(** A callback acts on the environment.  What a caller's callback might
    do to the subscription itself (unsubscribe, register a callback) is
    outside this model. *)
Definition Callback : Type := Event -> Action unit.

(** The exceptions that are the act of cancelling the task: those the
    [except] clause of the read loop names. *)
Definition is_cancellation (x : Exn) : bool :=
  match x with
  | CancelledError | KeyboardInterrupt => true
  | _ => false
  end.

(** Modelled from the spec: [SimpleTriggerCallback] comes from the
    cafeteria package, which is not part of the sources.  A handler runs
    its function on the static arguments bound at registration; the event
    is not passed on. *)
Definition SimpleTriggerCallback (function : Json -> Action unit)
    (data : Json) : Callback :=
  fun _ => function data.

Module CallbackRegistry.
(** Modelled from the spec: [CallbackRegistry] comes from the cafeteria
    package, which is not part of the sources.  The registry maps an
    event kind to an ordered collection of handlers; here, the pairs of a
    kind and a handler in registration order. *)
Abbreviation t := (list (Kind * Callback)).

(** Modelled from the spec: [CallbackRegistry.register] is missing with
    cafeteria.  Registration order is dispatch order: the handler goes
    last. *)
Definition register (k : Kind) (cb : Callback) (reg : t) : t :=
  (reg ++ [(k, cb)])%list.

(** Modelled from the spec: the lookup of [CallbackRegistry] is missing
    with cafeteria.  The handlers registered for a kind, in registration
    order; the keys are event kinds, so the absent kind has none. *)
Definition callbacks (k : option Kind) (reg : t) : list Callback :=
  match k with
  | Some k' => (filter (fun p => p.1 = k') reg).*2
  | None => []
  end.

(** Modelled from the spec: the dispatch of [CallbackRegistry] is missing
    with cafeteria.  The handlers are awaited in registration order with
    the event as their input.  The failure of a handler is isolated: the
    dispatch does not raise it and goes on with the next handler, unless
    the failure is the act of cancelling, which the dispatch raises. *)
Fixpoint run (cbs : list Callback) (event : Event) : Action unit :=
  fun e =>
    match cbs with
    | [] => (Ok tt, e)
    | cb :: rest =>
        match cb event e with
        | (Ok _, e') => run rest event e'
        | (Raise x, e') =>
            if is_cancellation x then (Raise x, e') else run rest event e'
        end
    end.

(** Modelled from the spec: [CallbackRegistry.handle_event] is missing
    with cafeteria.  Dispatch awaits all handlers registered for the kind;
    for a kind without handlers it is a no-op. *)
Definition handle_event (reg : t) (k : option Kind) (event : Event)
    : Action unit :=
  run (callbacks k reg) event.
End CallbackRegistry.

(** ** asyncio tasks *)

Record Coroutine : Type := {
  endpoint : string;
  session : ClientSession
}.

Module Task.
Inductive Status : Type := PENDING | FINISHED | CANCELLED.

Record t : Type := {
  coro : Coroutine;
  status : Status;
  must_cancel : bool
}.

Definition done (self : t) : bool :=
  match status self with PENDING => false | _ => true end.

Definition cancelled (self : t) : bool :=
  match status self with CANCELLED => true | _ => false end.

(** [task.cancel()]: a finished task is left alone; a pending one is
    asked to cancel and will meet [CancelledError] at its next wait. *)
Definition cancel (self : t) : bool * t :=
  if done self then (false, self)
  else (true, {| coro := coro self; status := status self;
                 must_cancel := true |}).
End Task.

(** [asyncio.create_task(coro)]: the new task and the tasks of the loop;
    a task is known by its position. *)
Definition create_task (c : Coroutine) (tasks : list Task.t)
    : nat * list Task.t :=
  (List.length tasks,
   (tasks ++ [{| Task.coro := c; Task.status := Task.PENDING;
                 Task.must_cancel := false |}])%list).

(** ** GraphQLSubscription *)

Inductive Control : Type := Continue | Break.

Module GraphQLSubscription.
Import GraphQLSubscriptionEventType.

Record t : Type := {
  id : string;
  request : GraphQLRequest.t;
  callbacks : CallbackRegistry.t;
  stop_event_types : list Kind;
  task : option nat
}.

(** The default of the [stop_event_types] field. *)
Definition default_stop_event_types : list Kind :=
  [ERROR; CONNECTION_ERROR; COMPLETE].

(** The subscription with everything its methods read or change: the
    tasks of the event loop, the environment of the callbacks, and the
    calls [callbacks.handle_event] has received, oldest first. *)
Record State : Type := {
  self : t;
  tasks : list Task.t;
  calls : list (option Kind * Event);
  env : Env
}.

Definition M (A : Type) : Type := State -> Result A * State.

Definition ret {A} (a : A) : M A := fun st => (Ok a, st).

Definition raise {A} (x : Exn) : M A := fun st => (Raise x, st).

Definition bind {A B} (c : M A) (k : A -> M B) : M B := fun st =>
  match c st with
  | (Ok a, st') => k a st'
  | (Raise x, st') => (Raise x, st')
  end.

#[global] Instance M_ret : MRet M := @ret.
#[global] Instance M_bind : MBind M := fun A B k c => bind c k.

(** A value that may raise, used in a method. *)
Definition lift {A} (r : Result A) : M A := fun st => (r, st).

(** A websocket or callback action, run on the environment. *)
Definition act {A} (a : Action A) : M A := fun st =>
  let (r, e) := a (env st) in
  (r, {| self := self st; tasks := tasks st; calls := calls st; env := e |}).

(** [try: c except ...: h] *)
Definition try_except {A} (c : M A) (h : Exn -> M A) : M A := fun st =>
  match c st with
  | (Ok a, st') => (Ok a, st')
  | (Raise x, st') => h x st'
  end.

Definition set_task (h : option nat) (st : State) : State :=
  {| self := {| id := id (self st); request := request (self st);
                callbacks := callbacks (self st);
                stop_event_types := stop_event_types (self st);
                task := h |};
     tasks := tasks st; calls := calls st; env := env st |}.

Definition set_callbacks (reg : CallbackRegistry.t) (st : State) : State :=
  {| self := {| id := id (self st); request := request (self st);
                callbacks := reg;
                stop_event_types := stop_event_types (self st);
                task := task (self st) |};
     tasks := tasks st; calls := calls st; env := env st |}.

Definition set_tasks (ts : list Task.t) (st : State) : State :=
  {| self := self st; tasks := ts; calls := calls st; env := env st |}.

(** [self], read in a method. *)
Definition get_self : M t := fun st => (Ok (self st), st).

(** [self.callbacks.register(k, cb)] *)
Definition register (k : Kind) (cb : Callback) : M unit := fun st =>
  (Ok tt,
   set_callbacks (CallbackRegistry.register k cb (callbacks (self st))) st).

(** [task = asyncio.create_task(c)] followed by
    [object.__setattr__(self, "task", task)]. *)
Definition spawn (c : Coroutine) : M unit := fun st =>
  let (h, ts) := create_task c (tasks st) in
  (Ok tt, set_task (Some h) (set_tasks ts st)).

(** The task behind a handle; a handle the loop does not hold counts as
    a task that is over. *)
Definition task_done (st : State) (h : nat) : bool :=
  from_option Task.done true (tasks st !! h).

Definition task_cancelled (st : State) (h : nat) : bool :=
  from_option Task.cancelled false (tasks st !! h).

Definition is_running (st : State) : bool :=
  match task (self st) with
  | Some h => negb (task_done st h) && negb (task_cancelled st h)
  | None => false
  end.

Definition is_complete (st : State) : bool :=
  match task (self st) with
  | Some h => task_done st h || task_cancelled st h
  | None => false
  end.

Definition connection_init_request (self : t) : Json :=
  JObj {[ "type" := JStr (value CONNECTION_INIT);
          "payload" :=
            JObj {[ "headers" :=
                      JObj (JStr <$> GraphQLRequest.headers (request self)) ]} ]}.

Definition connection_start_request (self : t) : Json :=
  JObj {[ "id" := JStr (id self);
          "type" := JStr (value START);
          "payload" := GraphQLRequest.payload (request self) ]}.

Definition connection_stop_request (self : t) : Json :=
  JObj {[ "id" := JStr (id self); "type" := JStr (value STOP) ]}.

Definition is_stop_event (self : t) (event : Event) : Result bool :=
  bindR (GraphQLSubscriptionEvent.type event) (fun k =>
    Ok (kind_in k (stop_event_types self))).

(** [await self.callbacks.handle_event(k, event)] *)
Definition dispatch (k : option Kind) (event : Event) : M unit := fun st =>
  let (r, e) :=
    CallbackRegistry.handle_event (callbacks (self st)) k event (env st) in
  (r, {| self := self st; tasks := tasks st;
         calls := calls st ++ [(k, event)]; env := e |}).

Definition handle (event : Event) : M unit := fun st =>
  if is_None (GraphQLSubscriptionEvent.id event)
     || eq_str (GraphQLSubscriptionEvent.id event) (id (self st))
  then (k ← lift (GraphQLSubscriptionEvent.type event);
        dispatch k event) st
  else (Ok tt, st).

(** The frame of an event is a dict: on any other decoded value the
    first [json.get] of [handle] raises [AttributeError]. *)
Definition as_dict (v : Json) : Result (gmap string Json) :=
  match v with
  | JObj d => Ok d
  | _ => Raise AttributeError
  end.

(** The body of the [async for]: one message. *)
Definition on_message (msg : WSMessage.t) : M Control :=
  if negb (bool_decide (WSMessage.type msg = WSMsgType.TEXT)) then
    if bool_decide (WSMessage.type msg = WSMsgType.ERROR)
    then ret Break
    else ret Continue
  else
    s ← get_self;
    frame ← lift (bindR (WSMessage.json msg) as_dict);
    let event :=
      {| GraphQLSubscriptionEvent.subscription_id := Some (id s);
         GraphQLSubscriptionEvent.request := request s;
         GraphQLSubscriptionEvent.json := frame |} in
    handle event;;
    stop ← lift (is_stop_event s event);
    if stop : bool then ret Break else ret Continue.

(** [async for msg in ws]: the loop ends when the iterator is exhausted,
    at a [break], or with the exception that reaches it. *)
Fixpoint read_loop (stream : list Arrival) : M unit :=
  match stream with
  | [] => ret tt
  | Deliver msg :: rest =>
      c ← on_message msg;
      match c with
      | Break => ret tt
      | Continue => read_loop rest
      end
  | Interrupt x :: _ => raise x
  | TransportLost :: rest =>
      act (fun e => (Ok tt, set_ws_state WsLost e));;
      read_loop rest
  end.

(** The [try] statement around the loop. *)
Definition guarded_loop (stream : list Arrival) : M unit :=
  try_except (read_loop stream) (fun x =>
    match x with
    | CancelledError | KeyboardInterrupt =>
        s ← get_self;
        act (send_json (connection_stop_request s))
    | _ => raise x
    end).

(** [async with session.ws_connect(endpoint) as ws]: the socket is open
    in the body and closed on the way out, whatever the outcome. *)
Definition async_with (ch : Channel) (body : list Arrival -> M unit)
    : M unit := fun st =>
  match connect ch with
  | Raise x => (Raise x, st)
  | Ok _ =>
      let st0 :=
        {| self := self st; tasks := tasks st; calls := calls st;
           env := set_ws_state WsOpen (env st) |} in
      let (r, st1) := body (arrivals ch) st0 in
      (r, {| self := self st1; tasks := tasks st1; calls := calls st1;
             env := set_ws_state WsClosed (env st1) |})
  end.

Definition _create_websocket_session (endpoint : string)
    (session : ClientSession) : M unit :=
  async_with (ws_connect session endpoint) (fun stream =>
    s ← get_self;
    act (send_json (connection_init_request s));;
    register CONNECTION_ACK
      (SimpleTriggerCallback send_json (connection_start_request s));;
    guarded_loop stream).

Definition unsubscribe : M unit := fun st =>
  let st1 :=
    if is_running st then
      match task (self st) with
      | Some h =>
          match tasks st !! h with
          | Some tk => set_tasks (<[h := (Task.cancel tk).2]> (tasks st)) st
          | None => st
          end
      | None => st
      end
    else st in
  (Ok tt, set_task None st1).

Section Subscribe.
(** The session of the branch without [session]: the one built on
    [create_default_connector()] of aiographql/client/helpers.py, which is
    not part of the sources, or the exception building it raises.  The
    source awaits the connector although [subscribe] is a plain function;
    the call is taken as made. *)
Variable default_session : Result ClientSession.

Definition subscribe (endpoint : string) (force : bool)
    (session : option ClientSession) : M unit := fun st =>
  if is_running st && negb force then (Ok tt, st)
  else
    (unsubscribe;;
     s ← match session with
          | Some s => ret s
          | None => lift default_session
          end;
     spawn {| endpoint := endpoint; session := s |}) st.
End Subscribe.
End GraphQLSubscription.

(** ** Sample data *)

Module Samples.
Import GraphQLSubscriptionEventType GraphQLSubscription.

Definition request0 : GraphQLRequest.t :=
  {| GraphQLRequest.query := "subscription { foo }";
     GraphQLRequest.variables := {[ "n" := JNum 1 ]};
     GraphQLRequest.headers := {[ "Authorization" := "Bearer t" ]} |}.

(** A caller's callback: it records the payload of the event. *)
Definition record_payload : Callback := fun event e =>
  match GraphQLSubscriptionEvent.payload event with
  | Ok p =>
      (Ok tt, {| ws_state := ws_state e; sent := sent e;
                 journal := journal e ++ [p] |})
  | Raise x => (Raise x, e)
  end.

(** A caller's callback that fails. *)
Definition failing : Callback := fun _ e => (Raise (Exception "boom"), e).

Definition subscription0 (reg : CallbackRegistry.t) : t :=
  {| id := "X"; request := request0; callbacks := reg;
     stop_event_types := default_stop_event_types; task := None |}.

Definition recording : CallbackRegistry.t :=
  [(DATA, record_payload); (ERROR, record_payload);
   (COMPLETE, record_payload); (CONNECTION_ERROR, record_payload)].

Definition env0 : Env := {| ws_state := WsClosed; sent := []; journal := [] |}.

Definition state0 (reg : CallbackRegistry.t) : State :=
  {| self := subscription0 reg; tasks := []; calls := []; env := env0 |}.

(** The state inside the [async with] block: the socket is open. *)
Definition open_state (reg : CallbackRegistry.t)
    (cs : list (option Kind * Event)) (frames : list Json) : State :=
  {| self := subscription0 reg; tasks := []; calls := cs;
     env := {| ws_state := WsOpen; sent := frames; journal := [] |} |}.

Definition event0 (frame : gmap string Json) : Event :=
  {| GraphQLSubscriptionEvent.request := request0;
     GraphQLSubscriptionEvent.json := frame;
     GraphQLSubscriptionEvent.subscription_id := Some "X" |}.

Definition text (frame : gmap string Json) : Arrival :=
  Deliver {| WSMessage.type := WSMsgType.TEXT;
             WSMessage.body := Some (JObj frame) |}.

Definition session0 (stream : list Arrival) : ClientSession :=
  {| ws_connect := fun _ => {| connect := Ok tt; arrivals := stream |} |}.

Definition ack : gmap string Json := {[ "type" := JStr "connection_ack" ]}.

Definition data_for (i : string) : gmap string Json :=
  {[ "type" := JStr "data"; "id" := JStr i;
     "payload" := JObj {[ "data" := JObj {[ "foo" := JNum 1 ]} ]} ]}.

Definition complete_for (i : string) : gmap string Json :=
  {[ "type" := JStr "complete"; "id" := JStr i ]}.

Definition keep_alive : gmap string Json := {[ "type" := JStr "ka" ]}.

Definition pending_task : Task.t :=
  {| Task.coro := {| endpoint := "wss://host/graphql";
                     session := session0 [] |};
     Task.status := Task.PENDING; Task.must_cancel := false |}.

Definition finished_task : Task.t :=
  {| Task.coro := Task.coro pending_task;
     Task.status := Task.FINISHED; Task.must_cancel := false |}.
End Samples.

(** ** Notions used in the statements *)

Import GraphQLSubscriptionEventType.

(** The test of [handle]: the frame carries no id, or the id [i]. *)
Definition addressed_to (i : string) (event : Event) : bool :=
  is_None (GraphQLSubscriptionEvent.id event)
  || eq_str (GraphQLSubscriptionEvent.id event) i.

(** The event the read loop builds from a decoded frame. *)
Definition event_of (self : GraphQLSubscription.t) (frame : gmap string Json)
    : Event :=
  {| GraphQLSubscriptionEvent.subscription_id := Some (GraphQLSubscription.id self);
     GraphQLSubscriptionEvent.request := GraphQLSubscription.request self;
     GraphQLSubscriptionEvent.json := frame |}.

(** The state in which the read loop goes on reading after the arrivals
    [pre]: there is one when none of them ends the loop. *)
Fixpoint advance (pre : list Arrival) (st : GraphQLSubscription.State)
    : option GraphQLSubscription.State :=
  match pre with
  | [] => Some st
  | Deliver msg :: rest =>
      match GraphQLSubscription.on_message msg st with
      | (Ok Continue, st') => advance rest st'
      | _ => None
      end
  | Interrupt _ :: _ => None
  | TransportLost :: rest =>
      advance rest
        {| GraphQLSubscription.self := GraphQLSubscription.self st;
           GraphQLSubscription.tasks := GraphQLSubscription.tasks st;
           GraphQLSubscription.calls := GraphQLSubscription.calls st;
           GraphQLSubscription.env :=
             set_ws_state WsLost (GraphQLSubscription.env st) |}
  end.

(** The state with one more frame written to the websocket. *)
Definition with_sent (data : Json) (st : GraphQLSubscription.State)
    : GraphQLSubscription.State :=
  {| GraphQLSubscription.self := GraphQLSubscription.self st;
     GraphQLSubscription.tasks := GraphQLSubscription.tasks st;
     GraphQLSubscription.calls := GraphQLSubscription.calls st;
     GraphQLSubscription.env :=
       {| ws_state := ws_state (GraphQLSubscription.env st);
          sent := sent (GraphQLSubscription.env st) ++ [data];
          journal := journal (GraphQLSubscription.env st) |} |}.

(** The state with the websocket in state [s]. *)
Definition with_ws (s : WsState) (st : GraphQLSubscription.State)
    : GraphQLSubscription.State :=
  {| GraphQLSubscription.self := GraphQLSubscription.self st;
     GraphQLSubscription.tasks := GraphQLSubscription.tasks st;
     GraphQLSubscription.calls := GraphQLSubscription.calls st;
     GraphQLSubscription.env := set_ws_state s (GraphQLSubscription.env st) |}.

(** The state in which the session starts to read: the socket is open, the
    init frame is written, the sender of the start frame is registered for
    [connection_ack]. *)
Definition entered (st : GraphQLSubscription.State)
    : GraphQLSubscription.State :=
  let s := GraphQLSubscription.self st in
  GraphQLSubscription.set_callbacks
    (CallbackRegistry.register CONNECTION_ACK
       (SimpleTriggerCallback send_json
          (GraphQLSubscription.connection_start_request s))
       (GraphQLSubscription.callbacks s))
    (with_sent (GraphQLSubscription.connection_init_request s)
       (with_ws WsOpen st)).

(** An entry of the call log made for the subscription [s]: the event
    bears the id and the request of [s], and its frame has no id or the id
    of [s]. *)
Definition own_call (s : GraphQLSubscription.t) (c : option Kind * Event)
    : Prop :=
  addressed_to (GraphQLSubscription.id s) c.2 = true /\
  GraphQLSubscriptionEvent.subscription_id c.2
    = Some (GraphQLSubscription.id s) /\
  GraphQLSubscriptionEvent.request c.2 = GraphQLSubscription.request s.

(** The task [tk] once it has been asked to cancel. *)
Definition asked_to_cancel (tk : Task.t) : Task.t :=
  {| Task.coro := Task.coro tk; Task.status := Task.status tk;
     Task.must_cancel := true |}.

(** The task [asyncio.create_task] makes for a session. *)
Definition new_task (endpoint : string) (s : ClientSession) : Task.t :=
  {| Task.coro := {| endpoint := endpoint; session := s |};
     Task.status := Task.PENDING; Task.must_cancel := false |}.

(** The field [k] of a json object. *)
Definition field (k : string) (v : Json) : option Json :=
  match v with
  | JObj d => d !! k
  | _ => None
  end.

(** * Properties *)

(** ** Classification of frames *)

Lemma call_outcome (v : Json) :
  (exists k, call v = Ok k) \/ call v = Raise ValueError.
Proof.
  unfold call. destruct (List.find _ members); [left; eauto | right; reflexivity].
Qed.

Lemma call_Ok (v : Json) (k : Kind) : call v = Ok k -> v = JStr (value k).
Proof.
  unfold call. destruct (List.find _ members) as [k'|] eqn:Hfind; [|discriminate].
  intros [= ->]. apply List.find_some in Hfind as [_ Heq].
  destruct v; simpl in Heq; try discriminate.
  apply String.eqb_eq in Heq. by subst.
Qed.

Lemma call_value (k : Kind) : call (JStr (value k)) = Ok k.
Proof. by destruct k. Qed.

Lemma call_unrecognized (v : Json) :
  (forall k, v <> JStr (value k)) -> call v = Raise ValueError.
Proof.
  intros Hun. destruct (call_outcome v) as [[k Hk]|]; [|done].
  apply call_Ok in Hk. by destruct (Hun k).
Qed.

Lemma type_outcome (event : Event) :
  exists k, GraphQLSubscriptionEvent.type event = Ok k.
Proof.
  unfold GraphQLSubscriptionEvent.type.
  destruct (call_outcome (dict_get "type" (GraphQLSubscriptionEvent.json event)))
    as [[k ->]| ->]; eauto.
Qed.

Lemma type_Some (event : Event) (k : Kind) :
  GraphQLSubscriptionEvent.type event = Ok (Some k) <->
  dict_get "type" (GraphQLSubscriptionEvent.json event) = JStr (value k).
Proof.
  unfold GraphQLSubscriptionEvent.type. split.
  - destruct (call _) as [k'|x] eqn:Hcall.
    + intros [= ->]. by apply call_Ok.
    + by destruct x.
  - intros ->. by rewrite call_value.
Qed.

(** ** Dispatch *)

Lemma handle_event_None (reg : CallbackRegistry.t) (event : Event) (e : Env) :
  CallbackRegistry.handle_event reg None event e = (Ok tt, e).
Proof. reflexivity. Qed.

Lemma run_app (cbs cbs' : list Callback) (event : Event) (e : Env) :
  CallbackRegistry.run (cbs ++ cbs') event e =
  match CallbackRegistry.run cbs event e with
  | (Ok _, e') => CallbackRegistry.run cbs' event e'
  | (Raise x, e') => (Raise x, e')
  end.
Proof.
  revert e. induction cbs as [|cb cbs IH]; intros e; simpl; [done|].
  destruct (cb event e) as [[[]|x] e']; [apply IH |].
  destruct (is_cancellation x); [done | apply IH].
Qed.

Lemma callbacks_register (k : Kind) (cb : Callback) (reg : CallbackRegistry.t) :
  CallbackRegistry.callbacks (Some k) (CallbackRegistry.register k cb reg) =
  (CallbackRegistry.callbacks (Some k) reg ++ [cb])%list.
Proof.
  unfold CallbackRegistry.callbacks, CallbackRegistry.register.
  rewrite filter_app, fmap_app. f_equal.
  rewrite filter_cons_True by done. reflexivity.
Qed.

Lemma handle_unfold (event : Event) (k : option Kind)
    (st : GraphQLSubscription.State) :
  GraphQLSubscriptionEvent.type event = Ok k ->
  GraphQLSubscription.handle event st =
  if addressed_to (GraphQLSubscription.id (GraphQLSubscription.self st)) event
  then GraphQLSubscription.dispatch k event st
  else (Ok tt, st).
Proof.
  intros Hk. unfold GraphQLSubscription.handle, addressed_to.
  destruct (_ || _); [|done].
  unfold mbind, GraphQLSubscription.M_bind, GraphQLSubscription.bind,
    GraphQLSubscription.lift. by rewrite Hk.
Qed.

Lemma addressed_to_spec (i : string) (event : Event) :
  addressed_to i event = true <->
  GraphQLSubscriptionEvent.id event = JNull \/
  GraphQLSubscriptionEvent.id event = JStr i.
Proof.
  unfold addressed_to. rewrite orb_true_iff. split.
  - intros [H|H]; destruct (GraphQLSubscriptionEvent.id event);
      simpl in H; try discriminate; [by left|].
    apply String.eqb_eq in H. right. by subst.
  - intros [-> | ->]; simpl; [by left|]. right. apply String.eqb_refl.
Qed.

Lemma handle_calls (event : Event) (k : option Kind)
    (st : GraphQLSubscription.State) :
  GraphQLSubscriptionEvent.type event = Ok k ->
  GraphQLSubscription.calls (GraphQLSubscription.handle event st).2 =
  (GraphQLSubscription.calls st ++
   if addressed_to (GraphQLSubscription.id (GraphQLSubscription.self st)) event
   then [(k, event)] else [])%list.
Proof.
  intros Hk. rewrite (handle_unfold _ _ _ Hk).
  destruct (addressed_to _ _); simpl.
  - unfold GraphQLSubscription.dispatch.
    by destruct (CallbackRegistry.handle_event _ _ _ _).
  - by rewrite app_nil_r.
Qed.

Lemma addressed_to_frame (i : string) (event : Event) :
  addressed_to i event =
  match GraphQLSubscriptionEvent.json event !! "id" with
  | None | Some JNull => true
  | Some (JStr s) => String.eqb s i
  | Some _ => false
  end.
Proof.
  unfold addressed_to, GraphQLSubscriptionEvent.id, dict_get.
  by destruct (GraphQLSubscriptionEvent.json event !! "id") as [[]|].
Qed.

(** C1: [handle] gives the event to the registry of the subscription if
    and only if the frame has no [id], a null one, or the string that is
    the id of the subscription.  It then awaits
    [callbacks.handle_event(event.type, event)] on that registry, whose
    callbacks run on the environment, and raises what that call raises.
    An event whose frame has any other id (another string, or a value that
    is no string) is dropped: [handle] returns with the whole state as it
    was, so no callback has run and no call has reached the registry. *)
Theorem handle_dispatches_iff_addressed (event : Event)
    (st : GraphQLSubscription.State) :
  let i := GraphQLSubscription.id (GraphQLSubscription.self st) in
  let frame := GraphQLSubscriptionEvent.json event in
  let own := match frame !! "id" with
             | None | Some JNull => true
             | Some (JStr s) => String.eqb s i
             | Some _ => false
             end in
  (own = true <->
     frame !! "id" = None \/ frame !! "id" = Some JNull \/
     frame !! "id" = Some (JStr i)) /\
  exists k,
    GraphQLSubscriptionEvent.type event = Ok k /\
    (forall k', k = Some k' <-> frame !! "type" = Some (JStr (value k'))) /\
    GraphQLSubscription.handle event st =
      (if own then
         let (r, e) :=
           CallbackRegistry.run
             (CallbackRegistry.callbacks k
                (GraphQLSubscription.callbacks (GraphQLSubscription.self st)))
             event (GraphQLSubscription.env st) in
         (r, {| GraphQLSubscription.self := GraphQLSubscription.self st;
                GraphQLSubscription.tasks := GraphQLSubscription.tasks st;
                GraphQLSubscription.calls :=
                  GraphQLSubscription.calls st ++ [(k, event)];
                GraphQLSubscription.env := e |})
       else (Ok tt, st)) /\
    ((exists c, GraphQLSubscription.calls (GraphQLSubscription.handle event st).2
                = (GraphQLSubscription.calls st ++ [c])%list) <-> own = true).
Proof.
  intros i frame own.
  assert (Hown : addressed_to i event = own) by apply addressed_to_frame.
  split.
  - subst own. destruct (frame !! "id") as [[]|] eqn:Hid; split;
      try done; try (by intros [H|[H|H]]); try (intros _; by eauto).
    + intros Heq. apply String.eqb_eq in Heq. subst. eauto.
    + intros [H|[H|H]]; try done. injection H as ->. apply String.eqb_refl.
  - destruct (type_outcome event) as [k Hk]. exists k.
    pose proof (handle_calls event k st Hk) as Hcalls.
    fold i in Hcalls. rewrite Hown in Hcalls.
    split_and!; [done | | |].
    + intros k'. split.
      * intros ->. apply type_Some in Hk. unfold dict_get in Hk.
        fold frame in Hk. by destruct (frame !! "type") as [v|]; simplify_eq/=.
      * intros Hty. assert (Hk' : GraphQLSubscriptionEvent.type event
                                  = Ok (Some k')).
        { apply type_Some. unfold dict_get. fold frame. by rewrite Hty. }
        congruence.
    + rewrite (handle_unfold _ _ _ Hk). fold i. rewrite Hown.
      by destruct own.
    + rewrite Hcalls. destruct own; split; try done.
      * eauto.
      * intros [c Hc]. rewrite app_nil_r in Hc.
        apply (f_equal List.length) in Hc. rewrite length_app in Hc.
        simpl in Hc. lia.
Qed.

(** The registry of the subscription decides what runs: the callback
    registered for [data] records the payload of a frame with the id of the
    subscription and of a frame without id, and nothing for a frame with
    another id or with an id that is no string. *)
Example handle_own_and_foreign_frames :
  let st := Samples.open_state Samples.recording [] [] in
  let recorded frame :=
    journal (GraphQLSubscription.env
               (GraphQLSubscription.handle (Samples.event0 frame) st).2) in
  let p := JObj {[ "data" := JObj {[ "foo" := JNum 1 ]} ]} in
  let resp := Response {| GraphQLResponse.request := Samples.request0;
                          GraphQLResponse.json := p |} in
  recorded (Samples.data_for "X") = [resp] /\
  recorded {[ "type" := JStr "data"; "payload" := p ]} = [resp] /\
  recorded (Samples.data_for "other") = [] /\
  recorded {[ "type" := JStr "data"; "id" := JNum 7; "payload" := p ]} = [].
Proof. vm_compute. split_and!; reflexivity. Qed.

(** ** The payload of an event *)

(** C2, amended: the payload of a [data] or [error] event whose frame has a
    payload other than [None] is a [GraphQLResponse] holding the request of
    the event and that payload; in every other case the accessor returns
    what the frame holds under [payload], unchanged. *)
Theorem payload_by_kind (event : Event) (k : option Kind) :
  GraphQLSubscriptionEvent.type event = Ok k ->
  let p := dict_get "payload" (GraphQLSubscriptionEvent.json event) in
  GraphQLSubscriptionEvent.payload event =
  Ok (if kind_in k [DATA; ERROR] && negb (is_None p)
      then Response
             {| GraphQLResponse.request := GraphQLSubscriptionEvent.request event;
                GraphQLResponse.json := p |}
      else Raw p).
Proof.
  intros Hk p. unfold GraphQLSubscriptionEvent.payload. fold p.
  destruct p; simpl; rewrite ?Hk; simpl;
    try (by rewrite andb_false_r); rewrite andb_true_r;
    by destruct (kind_in k _).
Qed.

Lemma payload_by_kind_witness :
  GraphQLSubscriptionEvent.payload (Samples.event0 (Samples.data_for "X")) =
  Ok (Response
        {| GraphQLResponse.request := Samples.request0;
           GraphQLResponse.json := JObj {[ "data" := JObj {[ "foo" := JNum 1 ]} ]} |}).
Proof.
  exact (payload_by_kind (Samples.event0 (Samples.data_for "X")) (Some DATA)
           eq_refl).
Defined.

(** C2 as stated fails: a [data] event whose frame has no payload yields
    [None], not a [GraphQLResponse]. *)
Lemma payload_data_without_payload_is_None :
  let event := Samples.event0 {[ "type" := JStr "data"; "id" := JStr "X" ]} in
  GraphQLSubscriptionEvent.type event = Ok (Some DATA) /\
  GraphQLSubscriptionEvent.payload event = Ok (Raw JNull) /\
  ~ exists r, GraphQLSubscriptionEvent.payload event = Ok (Response r).
Proof.
  split_and!; [done | done |]. by intros [r Hr].
Qed.

(** C10: when the frame has no payload, or a null one, the payload accessor
    returns [None] whatever the kind of the event: never a response. *)
Theorem payload_absent_is_None (event : Event) :
  GraphQLSubscriptionEvent.json event !! "payload" = None \/
  GraphQLSubscriptionEvent.json event !! "payload" = Some JNull ->
  GraphQLSubscriptionEvent.payload event = Ok (Raw JNull) /\
  forall r, GraphQLSubscriptionEvent.payload event <> Ok (Response r).
Proof.
  intros H.
  assert (Hp : GraphQLSubscriptionEvent.payload event = Ok (Raw JNull)).
  { unfold GraphQLSubscriptionEvent.payload, dict_get. by destruct H as [-> | ->]. }
  split; [done|]. intros r. by rewrite Hp.
Qed.

Lemma payload_absent_is_None_witness :
  let event := Samples.event0 {[ "type" := JStr "error"; "id" := JStr "X" ]} in
  GraphQLSubscriptionEvent.type event = Ok (Some ERROR) /\
  GraphQLSubscriptionEvent.payload event = Ok (Raw JNull).
Proof.
  split; [reflexivity|].
  apply (payload_absent_is_None
           (Samples.event0 {[ "type" := JStr "error"; "id" := JStr "X" ]})).
  left. reflexivity.
Defined.

(** ** Unrecognized frames *)

(** C3: when the [type] of a frame is none of the ten values of the
    enumeration (it may be absent, or not a string), the [type] accessor
    does not raise and returns [None]; the registry does nothing with such
    an event, and [handle] returns without raising, leaving the
    subscription, the tasks and the environment of the callbacks as they
    were. *)
Theorem unrecognized_type_is_inert (event : Event) :
  (forall k, dict_get "type" (GraphQLSubscriptionEvent.json event)
             <> JStr (value k)) ->
  GraphQLSubscriptionEvent.type event = Ok None /\
  (forall reg e, CallbackRegistry.handle_event reg None event e = (Ok tt, e)) /\
  (forall st, exists st',
     GraphQLSubscription.handle event st = (Ok tt, st') /\
     GraphQLSubscription.self st' = GraphQLSubscription.self st /\
     GraphQLSubscription.tasks st' = GraphQLSubscription.tasks st /\
     GraphQLSubscription.env st' = GraphQLSubscription.env st).
Proof.
  intros Hun.
  assert (Hty : GraphQLSubscriptionEvent.type event = Ok None).
  { unfold GraphQLSubscriptionEvent.type. by rewrite call_unrecognized. }
  split_and!; [done | done |].
  intros st. rewrite (handle_unfold _ _ _ Hty).
  destruct (addressed_to _ _); eauto.
Qed.

Lemma unrecognized_type_is_inert_witness :
  GraphQLSubscriptionEvent.type
    (Samples.event0 {[ "type" := JStr "pong"; "id" := JStr "X" ]}) = Ok None.
Proof.
  apply (unrecognized_type_is_inert
           (Samples.event0 {[ "type" := JStr "pong"; "id" := JStr "X" ]})).
  intros k. destruct k; vm_compute; discriminate.
Defined.

(** ** The read loop *)

Ltac unfold_M :=
  unfold mbind, mret, GraphQLSubscription.M_bind, GraphQLSubscription.M_ret,
    GraphQLSubscription.bind, GraphQLSubscription.ret,
    GraphQLSubscription.lift, GraphQLSubscription.raise,
    GraphQLSubscription.get_self, GraphQLSubscription.act.

Lemma read_loop_advance (pre rest : list Arrival)
    (st st1 : GraphQLSubscription.State) :
  advance pre st = Some st1 ->
  GraphQLSubscription.read_loop (pre ++ rest) st =
  GraphQLSubscription.read_loop rest st1.
Proof.
  revert st. induction pre as [|a pre IH]; intros st; simpl.
  - by intros [= ->].
  - destruct a as [msg| |]; [| done |].
    + unfold_M.
      destruct (GraphQLSubscription.on_message msg st) as [[[]|] st']; try done.
      apply IH.
    + intros H. unfold_M. simpl. by apply IH.
Qed.

Lemma on_message_text (msg : WSMessage.t) (frame : gmap string Json)
    (st : GraphQLSubscription.State) :
  WSMessage.type msg = WSMsgType.TEXT ->
  WSMessage.body msg = Some (JObj frame) ->
  GraphQLSubscription.on_message msg st =
  let event := event_of (GraphQLSubscription.self st) frame in
  match GraphQLSubscription.handle event st with
  | (Ok _, st') =>
      match GraphQLSubscription.is_stop_event (GraphQLSubscription.self st) event with
      | Ok true => (Ok Break, st')
      | Ok false => (Ok Continue, st')
      | Raise x => (Raise x, st')
      end
  | (Raise x, st') => (Raise x, st')
  end.
Proof.
  intros Hty Hbody. unfold GraphQLSubscription.on_message, WSMessage.json.
  rewrite Hty, Hbody. simpl. unfold_M. simpl. fold (event_of (GraphQLSubscription.self st) frame).
  destruct (GraphQLSubscription.handle _ st) as [[[]|x] st']; [|done].
  by destruct (GraphQLSubscription.is_stop_event _ _) as [[]|].
Qed.

Lemma guarded_loop_unfold (stream : list Arrival)
    (st : GraphQLSubscription.State) :
  GraphQLSubscription.guarded_loop stream st =
  match GraphQLSubscription.read_loop stream st with
  | (Ok a, st') => (Ok a, st')
  | (Raise CancelledError, st') | (Raise KeyboardInterrupt, st') =>
      match ws_state (GraphQLSubscription.env st') with
      | WsOpen =>
          (Ok tt,
           with_sent
             (GraphQLSubscription.connection_stop_request
                (GraphQLSubscription.self st')) st')
      | _ => (Raise ConnectionResetError, st')
      end
  | (Raise x, st') => (Raise x, st')
  end.
Proof.
  unfold GraphQLSubscription.guarded_loop, GraphQLSubscription.try_except.
  destruct (GraphQLSubscription.read_loop stream st) as [[a|x] st']; [done|].
  destruct x; try done; unfold_M; unfold send_json, with_sent;
    destruct st' as [s ts cs [ws snt jr]]; simpl; by destruct ws.
Qed.

(** C4, amended: when the read loop meets a text frame whose kind is one of
    the stop kinds, it first gives the event to [handle], which passes it
    to the registry when the frame has no id or the id of the subscription
    and drops it otherwise; when [handle] returns, the loop ends normally:
    no later arrival is read and no stop frame is written, the final state
    is the one [handle] left. *)
Theorem stop_event_is_handled_then_loop_ends (pre rest : list Arrival)
    (msg : WSMessage.t) (frame : gmap string Json)
    (st st1 st2 : GraphQLSubscription.State) :
  advance pre st = Some st1 ->
  WSMessage.type msg = WSMsgType.TEXT ->
  WSMessage.body msg = Some (JObj frame) ->
  let event := event_of (GraphQLSubscription.self st1) frame in
  GraphQLSubscription.is_stop_event (GraphQLSubscription.self st1) event
    = Ok true ->
  GraphQLSubscription.handle event st1 = (Ok tt, st2) ->
  GraphQLSubscription.guarded_loop (pre ++ Deliver msg :: rest) st
    = (Ok tt, st2) /\
  exists k,
    GraphQLSubscriptionEvent.type event = Ok (Some k) /\
    k ∈ GraphQLSubscription.stop_event_types (GraphQLSubscription.self st1) /\
    GraphQLSubscription.calls st2 =
      (GraphQLSubscription.calls st1 ++
       if addressed_to
            (GraphQLSubscription.id (GraphQLSubscription.self st1)) event
       then [(Some k, event)] else [])%list.
Proof.
  intros Hpre Hty Hbody event Hstop Hhandle. split.
  - rewrite guarded_loop_unfold, (read_loop_advance _ _ _ _ Hpre). simpl.
    unfold_M. rewrite (on_message_text _ _ _ Hty Hbody). simpl.
    fold event. by rewrite Hhandle, Hstop.
  - unfold GraphQLSubscription.is_stop_event in Hstop.
    destruct (GraphQLSubscriptionEvent.type event) as [[k|]|] eqn:Hk;
      simpl in Hstop; try discriminate.
    exists k. split_and!; [done | |].
    + injection Hstop as Hin. by apply bool_decide_eq_true in Hin.
    + pose proof (handle_calls event (Some k) st1 Hk) as Hc.
      by rewrite Hhandle in Hc.
Qed.

Lemma stop_event_is_handled_then_loop_ends_witness :
  exists st2,
    GraphQLSubscription.guarded_loop
      [Samples.text (Samples.data_for "X"); Samples.text (Samples.complete_for "X");
       Samples.text (Samples.data_for "X")]
      (Samples.state0 Samples.recording) = (Ok tt, st2) /\
    List.length (GraphQLSubscription.calls st2) = 2 /\
    sent (GraphQLSubscription.env st2) = [].
Proof.
  eexists. split.
  - refine (proj1 (stop_event_is_handled_then_loop_ends
             [Samples.text (Samples.data_for "X")]
             [Samples.text (Samples.data_for "X")]
             {| WSMessage.type := WSMsgType.TEXT;
                WSMessage.body := Some (JObj (Samples.complete_for "X")) |}
             (Samples.complete_for "X")
             (Samples.state0 Samples.recording) _ _ _ _ _ _ _));
      [vm_compute; reflexivity | reflexivity | reflexivity
      | vm_compute; reflexivity | vm_compute; reflexivity].
  - split; reflexivity.
Defined.

(** C4 as stated fails: a [complete] frame that bears the id of another
    subscription ends the loop, yet it is never given to the registry: no
    call reaches [handle_event] and the [complete] callback does not run. *)
Lemma foreign_stop_event_ends_loop_undelivered :
  let run :=
    GraphQLSubscription._create_websocket_session "wss://host/graphql"
      (Samples.session0
         [Samples.text (Samples.complete_for "other");
          Samples.text (Samples.data_for "X")])
      (Samples.state0 Samples.recording) in
  run.1 = Ok tt /\
  GraphQLSubscription.calls run.2 = [] /\
  journal (GraphQLSubscription.env run.2) = [] /\
  sent (GraphQLSubscription.env run.2) =
    [GraphQLSubscription.connection_init_request
       (Samples.subscription0 Samples.recording)].
Proof. vm_compute. split_and!; reflexivity. Qed.

(** C5, amended: when [CancelledError] (or [KeyboardInterrupt]) reaches the
    [try] statement of the read loop, the client makes exactly one attempt
    to write the stop frame, which carries the id of the subscription and
    the type [stop].  On an open socket the frame is written and the
    session ends normally; otherwise the failure of the write is raised to
    the caller of the session.  In both cases the [async with] statement
    closes the socket on the way out. *)
Theorem cancellation_attempts_one_stop_frame (stream : list Arrival)
    (x : Exn) (st st1 : GraphQLSubscription.State) :
  x = CancelledError \/ x = KeyboardInterrupt ->
  GraphQLSubscription.read_loop stream st = (Raise x, st1) ->
  let i := GraphQLSubscription.id (GraphQLSubscription.self st1) in
  GraphQLSubscription.guarded_loop stream st =
    match ws_state (GraphQLSubscription.env st1) with
    | WsOpen =>
        (Ok tt,
         with_sent (JObj {[ "id" := JStr i; "type" := JStr "stop" ]}) st1)
    | _ => (Raise ConnectionResetError, st1)
    end /\
  forall (ch : Channel) body st0,
    connect ch = Ok tt ->
    ws_state (GraphQLSubscription.env
                (GraphQLSubscription.async_with ch body st0).2) = WsClosed.
Proof.
  intros Hx Hloop i. split.
  - rewrite guarded_loop_unfold, Hloop. by destruct Hx as [-> | ->].
  - intros ch body st0 Hch. unfold GraphQLSubscription.async_with.
    rewrite Hch. by destruct (body _ _).
Qed.

Lemma cancellation_attempts_one_stop_frame_witness :
  GraphQLSubscription.guarded_loop
    [Samples.text Samples.keep_alive; Interrupt CancelledError]
    (Samples.open_state Samples.recording [] [])
  = (Ok tt,
     Samples.open_state Samples.recording
       [(Some KEEP_ALIVE, Samples.event0 Samples.keep_alive)]
       [JObj {[ "id" := JStr "X"; "type" := JStr "stop" ]}]).
Proof.
  apply (cancellation_attempts_one_stop_frame
           [Samples.text Samples.keep_alive; Interrupt CancelledError]
           CancelledError
           (Samples.open_state Samples.recording [] [])
           (Samples.open_state Samples.recording
              [(Some KEEP_ALIVE, Samples.event0 Samples.keep_alive)] [])
           (or_introl eq_refl)).
  vm_compute. reflexivity.
Defined.

(** C5 as stated fails: when the transport is gone by the time the task is
    cancelled, the write of the stop frame raises and nothing catches it:
    the session ends with [ConnectionResetError]. *)
Lemma cancellation_on_lost_transport_raises :
  let run :=
    GraphQLSubscription._create_websocket_session "wss://host/graphql"
      (Samples.session0
         [Samples.text Samples.ack; TransportLost; Interrupt CancelledError])
      (Samples.state0 Samples.recording) in
  run.1 = Raise ConnectionResetError /\
  ws_state (GraphQLSubscription.env run.2) = WsClosed /\
  sent (GraphQLSubscription.env run.2) =
    [GraphQLSubscription.connection_init_request
       (Samples.subscription0 Samples.recording);
     GraphQLSubscription.connection_start_request
       (Samples.subscription0 Samples.recording)].
Proof. vm_compute. split_and!; reflexivity. Qed.

Lemma run_raises_only_cancellation (cbs : list Callback) (event : Event)
    (e e' : Env) (x : Exn) :
  CallbackRegistry.run cbs event e = (Raise x, e') ->
  is_cancellation x = true.
Proof.
  revert e. induction cbs as [|cb cbs IH]; intros e; simpl; [done|].
  destruct (cb event e) as [[[]|y] e1]; [apply IH|].
  destruct (is_cancellation y) eqn:Hy; [|apply IH].
  by intros [= <- _].
Qed.

Lemma run_isolates (cbs : list Callback) (event : Event) (e : Env) :
  (forall cb e0 x, cb ∈ cbs -> (cb event e0).1 = Raise x ->
                   is_cancellation x = false) ->
  exists e', CallbackRegistry.run cbs event e = (Ok tt, e').
Proof.
  revert e. induction cbs as [|cb cbs IH]; intros e Hcbs; simpl; [by eauto|].
  assert (Hrest : forall cb0 e0 x, cb0 ∈ cbs ->
            (cb0 event e0).1 = Raise x -> is_cancellation x = false).
  { intros cb0 e0 x Hin. apply Hcbs. by right. }
  destruct (cb event e) as [[[]|x] e1] eqn:Hcb; [by apply IH|].
  rewrite (Hcbs cb e x); [by apply IH | by left | by rewrite Hcb].
Qed.

Lemma handle_raises_only_cancellation (event : Event) (x : Exn)
    (st st' : GraphQLSubscription.State) :
  GraphQLSubscription.handle event st = (Raise x, st') ->
  is_cancellation x = true.
Proof.
  destruct (type_outcome event) as [k Hk]. rewrite (handle_unfold _ _ _ Hk).
  destruct (addressed_to _ _); [|done].
  unfold GraphQLSubscription.dispatch, CallbackRegistry.handle_event.
  destruct (CallbackRegistry.run _ _ _) as [r e] eqn:Hrun.
  intros [= -> _]. by eapply run_raises_only_cancellation.
Qed.

(** C9: an exception raised by a callback registered for the event, other
    than the cancellation itself, does not end the read loop: [handle]
    returns normally, and the loop goes on with the arrivals that follow,
    unless the event is a stop event, which ends the loop normally as any
    stop event does.  The only exceptions [handle] ever raises are those
    of cancellation. *)
Theorem handler_exception_is_isolated (pre rest : list Arrival)
    (msg : WSMessage.t) (frame : gmap string Json)
    (st st1 : GraphQLSubscription.State) :
  advance pre st = Some st1 ->
  WSMessage.type msg = WSMsgType.TEXT ->
  WSMessage.body msg = Some (JObj frame) ->
  let event := event_of (GraphQLSubscription.self st1) frame in
  (forall k cb e x,
     GraphQLSubscriptionEvent.type event = Ok k ->
     cb ∈ CallbackRegistry.callbacks k
            (GraphQLSubscription.callbacks (GraphQLSubscription.self st1)) ->
     (cb event e).1 = Raise x ->
     is_cancellation x = false) ->
  (forall x st', GraphQLSubscription.handle event st1 = (Raise x, st') ->
                 is_cancellation x = true) /\
  exists st2 stop,
    GraphQLSubscription.handle event st1 = (Ok tt, st2) /\
    GraphQLSubscription.is_stop_event (GraphQLSubscription.self st1) event
      = Ok stop /\
    GraphQLSubscription.guarded_loop (pre ++ Deliver msg :: rest) st =
      if stop then (Ok tt, st2)
      else GraphQLSubscription.guarded_loop rest st2.
Proof.
  intros Hpre Hty Hbody event Hcbs. split.
  - intros x st'. apply handle_raises_only_cancellation.
  - destruct (type_outcome event) as [k Hk].
    assert (Hhandle : exists st2,
              GraphQLSubscription.handle event st1 = (Ok tt, st2)).
    { rewrite (handle_unfold _ _ _ Hk). destruct (addressed_to _ _); [|by eauto].
      unfold GraphQLSubscription.dispatch, CallbackRegistry.handle_event.
      destruct (run_isolates
                  (CallbackRegistry.callbacks k
                     (GraphQLSubscription.callbacks
                        (GraphQLSubscription.self st1)))
                  event (GraphQLSubscription.env st1)) as [e' ->];
        [|by eauto].
      intros cb e0 x. by apply Hcbs. }
    destruct Hhandle as [st2 Hhandle].
    assert (Hstop : exists stop,
              GraphQLSubscription.is_stop_event
                (GraphQLSubscription.self st1) event = Ok stop).
    { unfold GraphQLSubscription.is_stop_event. rewrite Hk. simpl. eauto. }
    destruct Hstop as [stop Hstop].
    exists st2, stop. split_and!; [done | done |].
    rewrite !guarded_loop_unfold, (read_loop_advance _ _ _ _ Hpre). simpl.
    unfold_M. rewrite (on_message_text _ _ _ Hty Hbody). simpl.
    fold event. rewrite Hhandle, Hstop. by destruct stop.
Qed.

Lemma handler_exception_is_isolated_witness :
  let reg := [(DATA, Samples.failing); (DATA, Samples.record_payload)] in
  exists st2,
    GraphQLSubscription.guarded_loop
      [Samples.text (Samples.data_for "X"); Samples.text (Samples.data_for "X")]
      (Samples.open_state reg [] [])
    = GraphQLSubscription.guarded_loop
        [Samples.text (Samples.data_for "X")] st2 /\
    GraphQLSubscription.handle (Samples.event0 (Samples.data_for "X"))
      (Samples.open_state reg [] []) = (Ok tt, st2).
Proof.
  intros reg.
  destruct (handler_exception_is_isolated []
              [Samples.text (Samples.data_for "X")]
              {| WSMessage.type := WSMsgType.TEXT;
                 WSMessage.body := Some (JObj (Samples.data_for "X")) |}
              (Samples.data_for "X")
              (Samples.open_state reg [] []) (Samples.open_state reg [] [])
              eq_refl eq_refl eq_refl)
    as (_ & st2 & stop & Hhandle & Hstop & Hloop).
  - intros k cb e x Hk Hin Hr.
    assert (k = Some DATA) as -> by (vm_compute in Hk; congruence).
    assert (Hin' : cb ∈ [Samples.failing; Samples.record_payload])
      by exact Hin.
    apply elem_of_cons in Hin' as [-> | Hin'].
    + simpl in Hr. by injection Hr as <-.
    + apply elem_of_cons in Hin' as [-> | Hin'].
      * discriminate Hr.
      * by apply elem_of_nil in Hin'.
  - assert (stop = false) as -> by (vm_compute in Hstop; congruence).
    exists st2. split; [exact Hloop | exact Hhandle].
Defined.

(** A session whose first [data] callback always fails: both frames are
    handled, the second callback records both payloads, the session ends
    normally. *)
Example scenario_failing_callback :
  let run :=
    GraphQLSubscription._create_websocket_session "wss://host/graphql"
      (Samples.session0
         [Samples.text (Samples.data_for "X");
          Samples.text (Samples.data_for "X")])
      (Samples.state0
         [(DATA, Samples.failing); (DATA, Samples.record_payload)]) in
  run.1 = Ok tt /\
  GraphQLSubscription.calls run.2 =
    [(Some DATA, Samples.event0 (Samples.data_for "X"));
     (Some DATA, Samples.event0 (Samples.data_for "X"))] /\
  List.length (journal (GraphQLSubscription.env run.2)) = 2.
Proof. vm_compute. split_and!; reflexivity. Qed.

(** ** The frames the client writes *)

Lemma session_unfold (endpoint : string) (session : ClientSession)
    (st : GraphQLSubscription.State) :
  connect (ws_connect session endpoint) = Ok tt ->
  GraphQLSubscription._create_websocket_session endpoint session st =
  let (r, st1) :=
    GraphQLSubscription.guarded_loop
      (arrivals (ws_connect session endpoint)) (entered st) in
  (r, with_ws WsClosed st1).
Proof.
  intros Hc.
  unfold GraphQLSubscription._create_websocket_session,
    GraphQLSubscription.async_with.
  rewrite Hc. unfold_M. unfold GraphQLSubscription.register. simpl.
  reflexivity.
Qed.

(** C8: the [connection_init] frame has no id and its payload holds the
    headers of the request and nothing else, so neither [query] nor
    [variables]; the [start] frame holds the id of the subscription and, as
    its payload, the payload of the request with its [query] and
    [variables].  The session writes the init frame first and leaves the
    start frame to the callback it registers for [connection_ack], which
    writes it when it runs. *)
Theorem init_frame_has_headers_start_frame_has_request
    (self : GraphQLSubscription.t) :
  let init := GraphQLSubscription.connection_init_request self in
  let start := GraphQLSubscription.connection_start_request self in
  let req := GraphQLSubscription.request self in
  (field "type" init = Some (JStr "connection_init") /\
   field "id" init = None /\
   exists p : gmap string Json,
     field "payload" init = Some (JObj p) /\
     dom p = {[ "headers" ]} /\
     p !! "headers" = Some (JObj (JStr <$> GraphQLRequest.headers req)) /\
     p !! "query" = None /\ p !! "variables" = None) /\
  (field "type" start = Some (JStr "start") /\
   field "id" start = Some (JStr (GraphQLSubscription.id self)) /\
   field "payload" start = Some (GraphQLRequest.payload req) /\
   field "query" (GraphQLRequest.payload req)
     = Some (JStr (GraphQLRequest.query req)) /\
   field "variables" (GraphQLRequest.payload req)
     = Some (JObj (GraphQLRequest.variables req))) /\
  (forall endpoint session st,
     GraphQLSubscription.self st = self ->
     connect (ws_connect session endpoint) = Ok tt ->
     GraphQLSubscription._create_websocket_session endpoint session st =
       (let (r, st1) :=
          GraphQLSubscription.guarded_loop
            (arrivals (ws_connect session endpoint)) (entered st) in
        (r, with_ws WsClosed st1)) /\
     sent (GraphQLSubscription.env (entered st)) =
       (sent (GraphQLSubscription.env st) ++ [init])%list /\
     CallbackRegistry.callbacks (Some CONNECTION_ACK)
       (GraphQLSubscription.callbacks (GraphQLSubscription.self (entered st)))
     = (CallbackRegistry.callbacks (Some CONNECTION_ACK)
          (GraphQLSubscription.callbacks self)
        ++ [SimpleTriggerCallback send_json start])%list) /\
  (forall event e,
     ws_state e = WsOpen ->
     SimpleTriggerCallback send_json start event e =
       (Ok tt, {| ws_state := WsOpen; sent := sent e ++ [start];
                  journal := journal e |})).
Proof.
  intros init start req. split; [|split; [|split]].
  - split_and!; try reflexivity.
    exists {[ "headers" := JObj (JStr <$> GraphQLRequest.headers req) ]}.
    split_and!; reflexivity.
  - split_and!; reflexivity.
  - intros endpoint session st <- Hc. split_and!.
    + by apply session_unfold.
    + reflexivity.
    + apply callbacks_register.
  - intros event e He. unfold SimpleTriggerCallback, send_json.
    by rewrite He.
Qed.

(** The first scenario of the specification: ack, data, complete.  The
    start frame follows the ack, the [data] callback records one response,
    the loop ends at [complete] and writes no stop frame; the frame after
    [complete] is not read. *)
Example scenario_ack_data_complete :
  let run :=
    GraphQLSubscription._create_websocket_session "wss://host/graphql"
      (Samples.session0
         [Samples.text Samples.ack; Samples.text (Samples.data_for "X");
          Samples.text (Samples.complete_for "X");
          Samples.text (Samples.data_for "X")])
      (Samples.state0 Samples.recording) in
  run.1 = Ok tt /\
  sent (GraphQLSubscription.env run.2) =
    [GraphQLSubscription.connection_init_request
       (Samples.subscription0 Samples.recording);
     GraphQLSubscription.connection_start_request
       (Samples.subscription0 Samples.recording)] /\
  journal (GraphQLSubscription.env run.2) =
    [Response
       {| GraphQLResponse.request := Samples.request0;
          GraphQLResponse.json :=
            JObj {[ "data" := JObj {[ "foo" := JNum 1 ]} ]} |};
     Raw JNull] /\
  List.length (GraphQLSubscription.calls run.2) = 3.
Proof. vm_compute. split_and!; reflexivity. Qed.

(** ** The task of a subscription *)

(** C6: on a running subscription, [subscribe] without [force] returns at
    once: the subscription keeps the same task, and the tasks of the loop
    are the same, none created and none asked to cancel. *)
Theorem subscribe_running_is_noop (default_session : Result ClientSession)
    (endpoint : string) (session : option ClientSession)
    (st : GraphQLSubscription.State) :
  GraphQLSubscription.is_running st = true ->
  GraphQLSubscription.subscribe default_session endpoint false session st
    = (Ok tt, st).
Proof.
  intros Hrun. unfold GraphQLSubscription.subscribe. by rewrite Hrun.
Qed.

Lemma subscribe_running_is_noop_witness :
  let st :=
    GraphQLSubscription.set_task (Some 0)
      (GraphQLSubscription.set_tasks [Samples.pending_task]
         (Samples.state0 Samples.recording)) in
  GraphQLSubscription.subscribe (Raise ClientConnectionError)
    "wss://host/graphql" false (Some (Samples.session0 [])) st = (Ok tt, st).
Proof.
  apply (subscribe_running_is_noop (Raise ClientConnectionError)
           "wss://host/graphql" (Some (Samples.session0 []))
           (GraphQLSubscription.set_task (Some 0)
              (GraphQLSubscription.set_tasks [Samples.pending_task]
                 (Samples.state0 Samples.recording)))).
  reflexivity.
Defined.

(** C7, amended: on a subscription that is not running, [unsubscribe]
    cancels nothing, the tasks of the loop stay as they are, and it sets
    the task of the subscription to [None]; when there was no task, the
    state is unchanged. *)
Theorem unsubscribe_not_running_clears_task (st : GraphQLSubscription.State) :
  GraphQLSubscription.is_running st = false ->
  GraphQLSubscription.unsubscribe st
    = (Ok tt, GraphQLSubscription.set_task None st) /\
  GraphQLSubscription.tasks (GraphQLSubscription.unsubscribe st).2
    = GraphQLSubscription.tasks st /\
  (GraphQLSubscription.task (GraphQLSubscription.self st) = None ->
   GraphQLSubscription.unsubscribe st = (Ok tt, st)).
Proof.
  intros Hrun. unfold GraphQLSubscription.unsubscribe. rewrite Hrun.
  split_and!; [done | done |].
  intros Hnone. destruct st as [[i r c s t] ts cs e]. simpl in Hnone.
  by subst.
Qed.

Lemma unsubscribe_not_running_clears_task_witness :
  GraphQLSubscription.unsubscribe (Samples.state0 Samples.recording)
    = (Ok tt, Samples.state0 Samples.recording).
Proof.
  apply (unsubscribe_not_running_clears_task
           (Samples.state0 Samples.recording)); reflexivity.
Defined.

(** C7 as stated fails: on a subscription whose task is over, [unsubscribe]
    changes the state: the task it held is gone, and [is_complete] turns
    from true to false. *)
Lemma unsubscribe_finished_task_changes_state :
  let st :=
    GraphQLSubscription.set_task (Some 0)
      (GraphQLSubscription.set_tasks [Samples.finished_task]
         (Samples.state0 Samples.recording)) in
  let st' := (GraphQLSubscription.unsubscribe st).2 in
  GraphQLSubscription.is_running st = false /\
  GraphQLSubscription.task (GraphQLSubscription.self st) = Some 0 /\
  GraphQLSubscription.task (GraphQLSubscription.self st') = None /\
  GraphQLSubscription.is_complete st = true /\
  GraphQLSubscription.is_complete st' = false /\
  st' <> st.
Proof.
  split_and!; try reflexivity.
  intros H. apply (f_equal (fun s => GraphQLSubscription.task
                                       (GraphQLSubscription.self s))) in H.
  discriminate H.
Qed.

(** * Further properties *)

(** ** Classification *)

(** X1: the [type] accessor returns a member exactly when the frame holds
    that member's value under [type], and no two members share a value:
    each of the ten kinds is recovered from its wire value. *)
Theorem type_recovers_member (event : Event) (k : Kind) :
  (GraphQLSubscriptionEvent.type event = Ok (Some k) <->
   dict_get "type" (GraphQLSubscriptionEvent.json event) = JStr (value k)) /\
  (forall k', value k = value k' -> k = k') /\
  call (JStr (value k)) = Ok k.
Proof.
  split_and!.
  - unfold GraphQLSubscriptionEvent.type. split.
    + destruct (call _) as [k'|x] eqn:Hcall.
      * intros [= ->]. by apply call_Ok.
      * by destruct x.
    + intros ->. by rewrite call_value.
  - intros k' Hv. pose proof (call_value k) as H1.
    rewrite Hv, call_value in H1. by injection H1.
  - apply call_value.
Qed.

(** X2: reading a decoded frame raises only when the frame is not a json
    object, and then [AttributeError]; on an object, [type], [payload] and
    [is_stop_event] never raise, whichever fields are missing and whatever
    they hold. *)
Theorem accessors_raise_only_on_non_objects (self : GraphQLSubscription.t)
    (v : Json) :
  match v with
  | JObj frame =>
      GraphQLSubscription.as_dict v = Ok frame /\
      let event := event_of self frame in
      (exists k, GraphQLSubscriptionEvent.type event = Ok k) /\
      (exists p, GraphQLSubscriptionEvent.payload event = Ok p) /\
      (exists b, GraphQLSubscription.is_stop_event self event = Ok b)
  | _ => GraphQLSubscription.as_dict v = Raise AttributeError
  end.
Proof.
  destruct v as [| | | | |frame]; try reflexivity.
  split; [reflexivity|]. simpl.
  destruct (type_outcome (event_of self frame)) as [k Hk].
  split_and!; [by eauto | |].
  - unfold GraphQLSubscriptionEvent.payload. rewrite Hk. simpl.
    destruct (negb _); [|by eauto]. destruct (kind_in _ _); eauto.
  - unfold GraphQLSubscription.is_stop_event. rewrite Hk. simpl. eauto.
Qed.

(** X3: [is_stop_event] holds exactly for the frames whose [type] is the
    value of one of the subscription's stop kinds; a frame of an
    unrecognized type is never a stop event. *)
Theorem is_stop_event_iff_stop_kind (self : GraphQLSubscription.t)
    (event : Event) :
  GraphQLSubscription.is_stop_event self event = Ok true <->
  exists k, k ∈ GraphQLSubscription.stop_event_types self /\
            dict_get "type" (GraphQLSubscriptionEvent.json event)
              = JStr (value k).
Proof.
  unfold GraphQLSubscription.is_stop_event. split.
  - destruct (GraphQLSubscriptionEvent.type event) as [[k|]|] eqn:Hk;
      simpl; try discriminate.
    intros [= Hin]. apply bool_decide_eq_true in Hin.
    exists k. split; [done|].
    unfold GraphQLSubscriptionEvent.type in Hk.
    destruct (call _) as [k'|x] eqn:Hcall; [|by destruct x].
    injection Hk as ->. by apply call_Ok.
  - intros (k & Hin & Hty). unfold GraphQLSubscriptionEvent.type.
    rewrite Hty, call_value. simpl. f_equal. by apply bool_decide_eq_true.
Qed.

(** ** The read loop, frame by frame *)

Lemma on_message_not_text (msg : WSMessage.t)
    (st : GraphQLSubscription.State) :
  WSMessage.type msg <> WSMsgType.TEXT ->
  GraphQLSubscription.on_message msg st =
  (Ok (if bool_decide (WSMessage.type msg = WSMsgType.ERROR)
       then Break else Continue), st).
Proof.
  intros Hty. unfold GraphQLSubscription.on_message.
  rewrite bool_decide_eq_false_2 by done. simpl.
  by destruct (bool_decide _).
Qed.

(** X4: a message that is not text is never decoded nor handled: an
    [ERROR] message ends the loop normally, leaving the state as it is and
    the later arrivals unread; any other one is skipped and the loop reads
    on. *)
Theorem non_text_message_is_skipped_or_ends_loop (msg : WSMessage.t)
    (rest : list Arrival) (st : GraphQLSubscription.State) :
  WSMessage.type msg <> WSMsgType.TEXT ->
  GraphQLSubscription.guarded_loop (Deliver msg :: rest) st =
  if bool_decide (WSMessage.type msg = WSMsgType.ERROR)
  then (Ok tt, st)
  else GraphQLSubscription.guarded_loop rest st.
Proof.
  intros Hty. rewrite !guarded_loop_unfold. simpl. unfold_M.
  rewrite (on_message_not_text _ _ Hty).
  by destruct (bool_decide _).
Qed.

Lemma non_text_message_is_skipped_or_ends_loop_witness :
  GraphQLSubscription.guarded_loop
    [Deliver {| WSMessage.type := WSMsgType.ERROR; WSMessage.body := None |};
     Samples.text (Samples.data_for "X")]
    (Samples.open_state Samples.recording [] [])
  = (Ok tt, Samples.open_state Samples.recording [] []).
Proof.
  apply (non_text_message_is_skipped_or_ends_loop
           {| WSMessage.type := WSMsgType.ERROR; WSMessage.body := None |}
           [Samples.text (Samples.data_for "X")]
           (Samples.open_state Samples.recording [] [])).
  discriminate.
Defined.

(** X5: a text message whose body does not decode to a json object ends
    the loop with an exception ([ValueError] when it does not decode at
    all, [AttributeError] otherwise) before anything is handled: the state
    is unchanged, no callback runs and no stop frame is written. *)
Theorem undecodable_text_ends_loop (msg : WSMessage.t)
    (rest : list Arrival) (st : GraphQLSubscription.State) :
  WSMessage.type msg = WSMsgType.TEXT ->
  (forall d, WSMessage.body msg <> Some (JObj d)) ->
  GraphQLSubscription.guarded_loop (Deliver msg :: rest) st =
  (Raise (match WSMessage.body msg with
          | Some _ => AttributeError
          | None => ValueError
          end), st).
Proof.
  intros Hty Hbody. rewrite guarded_loop_unfold. simpl. unfold_M.
  unfold GraphQLSubscription.on_message, WSMessage.json.
  rewrite Hty. simpl. unfold_M.
  destruct (WSMessage.body msg) as [v|]; simpl; [|done].
  destruct v; simpl; try done. by destruct (Hbody fields).
Qed.

Lemma undecodable_text_ends_loop_witness :
  GraphQLSubscription.guarded_loop
    [Deliver {| WSMessage.type := WSMsgType.TEXT;
                WSMessage.body := Some (JArr [JNum 1]) |};
     Samples.text (Samples.data_for "X")]
    (Samples.open_state Samples.recording [] [])
  = (Raise AttributeError, Samples.open_state Samples.recording [] []).
Proof.
  apply (undecodable_text_ends_loop
           {| WSMessage.type := WSMsgType.TEXT;
              WSMessage.body := Some (JArr [JNum 1]) |}
           [Samples.text (Samples.data_for "X")]
           (Samples.open_state Samples.recording [] []));
    [reflexivity | discriminate].
Defined.

(** X6: a text frame whose kind is not a stop kind does not end the loop:
    once [handle] has returned, the loop goes on with the next arrival, in
    the state [handle] left. *)
Theorem other_event_lets_loop_continue (msg : WSMessage.t)
    (frame : gmap string Json) (rest : list Arrival)
    (st st2 : GraphQLSubscription.State) :
  WSMessage.type msg = WSMsgType.TEXT ->
  WSMessage.body msg = Some (JObj frame) ->
  let event := event_of (GraphQLSubscription.self st) frame in
  GraphQLSubscription.is_stop_event (GraphQLSubscription.self st) event
    = Ok false ->
  GraphQLSubscription.handle event st = (Ok tt, st2) ->
  GraphQLSubscription.guarded_loop (Deliver msg :: rest) st =
  GraphQLSubscription.guarded_loop rest st2.
Proof.
  intros Hty Hbody event Hstop Hhandle. rewrite !guarded_loop_unfold.
  simpl. unfold_M. rewrite (on_message_text _ _ _ Hty Hbody). simpl.
  fold event. by rewrite Hhandle, Hstop.
Qed.

Lemma other_event_lets_loop_continue_witness :
  GraphQLSubscription.guarded_loop
    [Samples.text Samples.keep_alive; Samples.text (Samples.complete_for "X")]
    (Samples.open_state Samples.recording [] [])
  = GraphQLSubscription.guarded_loop
      [Samples.text (Samples.complete_for "X")]
      (Samples.open_state Samples.recording
         [(Some KEEP_ALIVE, Samples.event0 Samples.keep_alive)] []).
Proof.
  apply (other_event_lets_loop_continue
           {| WSMessage.type := WSMsgType.TEXT;
              WSMessage.body := Some (JObj Samples.keep_alive) |}
           Samples.keep_alive [Samples.text (Samples.complete_for "X")]
           (Samples.open_state Samples.recording [] [])
           (Samples.open_state Samples.recording
              [(Some KEEP_ALIVE, Samples.event0 Samples.keep_alive)] []));
    [reflexivity | reflexivity | vm_compute; reflexivity
    | vm_compute; reflexivity].
Defined.

(** X7: when the peer closes the stream and no arrival has ended the loop
    before, the loop ends normally in the state the last arrival left: no
    stop frame is written. *)
Theorem exhausted_stream_ends_loop (stream : list Arrival)
    (st st1 : GraphQLSubscription.State) :
  advance stream st = Some st1 ->
  GraphQLSubscription.guarded_loop stream st = (Ok tt, st1).
Proof.
  intros Hadv. rewrite guarded_loop_unfold.
  rewrite <- (app_nil_r stream), (read_loop_advance _ [] _ _ Hadv).
  reflexivity.
Qed.

Lemma exhausted_stream_ends_loop_witness :
  GraphQLSubscription.guarded_loop
    [Samples.text Samples.keep_alive; Samples.text (Samples.data_for "other")]
    (Samples.open_state Samples.recording [] [])
  = (Ok tt,
     Samples.open_state Samples.recording
       [(Some KEEP_ALIVE, Samples.event0 Samples.keep_alive)] []).
Proof.
  apply (exhausted_stream_ends_loop
           [Samples.text Samples.keep_alive;
            Samples.text (Samples.data_for "other")]
           (Samples.open_state Samples.recording [] [])).
  vm_compute. reflexivity.
Defined.

(** ** What a session keeps *)

Lemma dispatch_frame (k : option Kind) (event : Event)
    (st : GraphQLSubscription.State) :
  let st' := (GraphQLSubscription.dispatch k event st).2 in
  GraphQLSubscription.self st' = GraphQLSubscription.self st /\
  GraphQLSubscription.tasks st' = GraphQLSubscription.tasks st /\
  GraphQLSubscription.calls st'
    = (GraphQLSubscription.calls st ++ [(k, event)])%list.
Proof.
  unfold GraphQLSubscription.dispatch.
  by destruct (CallbackRegistry.handle_event _ _ _ _).
Qed.

Lemma handle_frame (event : Event) (st : GraphQLSubscription.State) :
  let st' := (GraphQLSubscription.handle event st).2 in
  GraphQLSubscription.self st' = GraphQLSubscription.self st /\
  GraphQLSubscription.tasks st' = GraphQLSubscription.tasks st /\
  exists l,
    GraphQLSubscription.calls st' = (GraphQLSubscription.calls st ++ l)%list /\
    Forall (fun c => c.2 = event /\
              addressed_to
                (GraphQLSubscription.id (GraphQLSubscription.self st)) event
              = true) l.
Proof.
  destruct (type_outcome event) as [k Hk]. simpl.
  rewrite (handle_unfold _ _ _ Hk).
  destruct (addressed_to _ _) eqn:Hown.
  - destruct (dispatch_frame k event st) as (Hs & Ht & Hc).
    split_and!; [done | done |]. exists [(k, event)]. split; [done|].
    by repeat constructor.
  - split_and!; [done | done |]. exists []. by rewrite app_nil_r.
Qed.

Lemma on_message_frame (msg : WSMessage.t) (st : GraphQLSubscription.State) :
  let st' := (GraphQLSubscription.on_message msg st).2 in
  GraphQLSubscription.self st' = GraphQLSubscription.self st /\
  GraphQLSubscription.tasks st' = GraphQLSubscription.tasks st /\
  exists l,
    GraphQLSubscription.calls st' = (GraphQLSubscription.calls st ++ l)%list /\
    Forall (own_call (GraphQLSubscription.self st)) l.
Proof.
  assert (Hsame : forall c : Result Control,
    GraphQLSubscription.self (c, st).2 = GraphQLSubscription.self st /\
    GraphQLSubscription.tasks (c, st).2 = GraphQLSubscription.tasks st /\
    exists l,
      GraphQLSubscription.calls (c, st).2
        = (GraphQLSubscription.calls st ++ l)%list /\
      Forall (own_call (GraphQLSubscription.self st)) l).
  { intros c. split_and!; [done | done |]. exists [].
    by rewrite app_nil_r. }
  destruct (decide (WSMessage.type msg = WSMsgType.TEXT)) as [Hty|Hty];
    [|rewrite (on_message_not_text _ _ Hty); apply Hsame].
  destruct (WSMessage.body msg) as [v|] eqn:Hbody.
  2: { unfold GraphQLSubscription.on_message, WSMessage.json.
       rewrite Hty, Hbody. apply Hsame. }
  destruct v as [| | | | |frame];
    try (unfold GraphQLSubscription.on_message, WSMessage.json;
         rewrite Hty, Hbody; apply Hsame).
  rewrite (on_message_text _ _ _ Hty Hbody). simpl.
  set (event := event_of (GraphQLSubscription.self st) frame).
  destruct (handle_frame event st) as (Hs & Ht & l & Hc & Hl).
  assert (Hl' : Forall (own_call (GraphQLSubscription.self st)) l).
  { eapply Forall_impl; [exact Hl|]. intros c [Hc2 Hown].
    unfold own_call. rewrite Hc2. by split. }
  destruct (GraphQLSubscription.handle event st) as [[[]|x] st'];
    simpl in *.
  - destruct (GraphQLSubscription.is_stop_event _ _) as [[]|]; simpl; eauto.
  - eauto.
Qed.

Lemma read_loop_frame (stream : list Arrival)
    (st : GraphQLSubscription.State) :
  let st' := (GraphQLSubscription.read_loop stream st).2 in
  GraphQLSubscription.self st' = GraphQLSubscription.self st /\
  GraphQLSubscription.tasks st' = GraphQLSubscription.tasks st /\
  exists l,
    GraphQLSubscription.calls st' = (GraphQLSubscription.calls st ++ l)%list /\
    Forall (own_call (GraphQLSubscription.self st)) l.
Proof.
  revert st. induction stream as [|a stream IH]; intros st; simpl.
  - split_and!; [done | done |]. exists []. by rewrite app_nil_r.
  - destruct a as [msg|x|]; simpl.
    + unfold_M.
      destruct (on_message_frame msg st) as (Hs & Ht & l & Hc & Hl).
      destruct (GraphQLSubscription.on_message msg st) as [[c|x] st1];
        simpl in *; [|by eauto].
      destruct c; simpl; [|by eauto].
      destruct (IH st1) as (Hs' & Ht' & l' & Hc' & Hl').
      rewrite Hs', Ht', Hc', Hs, Ht, Hc. rewrite Hs in Hl'.
      split_and!; [done | done |]. exists (l ++ l')%list.
      split; [by rewrite app_assoc | by apply Forall_app].
    + split_and!; [done | done |]. exists []. by rewrite app_nil_r.
    + unfold_M. simpl. exact (IH (with_ws WsLost st)).
Qed.

Lemma guarded_loop_frame (stream : list Arrival)
    (st : GraphQLSubscription.State) :
  let st' := (GraphQLSubscription.guarded_loop stream st).2 in
  GraphQLSubscription.self st' = GraphQLSubscription.self st /\
  GraphQLSubscription.tasks st' = GraphQLSubscription.tasks st /\
  exists l,
    GraphQLSubscription.calls st' = (GraphQLSubscription.calls st ++ l)%list /\
    Forall (own_call (GraphQLSubscription.self st)) l.
Proof.
  simpl. rewrite guarded_loop_unfold.
  pose proof (read_loop_frame stream st) as H. simpl in H.
  destruct (GraphQLSubscription.read_loop stream st) as [[a|x] st1];
    simpl in *; [done|].
  destruct x; try done;
    by destruct (ws_state (GraphQLSubscription.env st1)).
Qed.

(** X9: whatever arrives during a session, the calls the registry
    receives are added after those it had received before, and each of
    them is for an event that bears the id and the request of the
    subscription and whose frame has no id or the subscription's id: no
    frame of another subscription ever reaches the registry. *)
Theorem registry_receives_only_own_events (endpoint : string)
    (session : ClientSession) (st : GraphQLSubscription.State) :
  exists l,
    GraphQLSubscription.calls
      (GraphQLSubscription._create_websocket_session endpoint session st).2
    = (GraphQLSubscription.calls st ++ l)%list /\
    Forall (own_call (GraphQLSubscription.self st)) l.
Proof.
  destruct (connect (ws_connect session endpoint)) as [[]|x] eqn:Hc.
  - rewrite (session_unfold _ _ _ Hc).
    destruct (guarded_loop_frame (arrivals (ws_connect session endpoint))
                (entered st)) as (_ & _ & l & Hl & Hown).
    destruct (GraphQLSubscription.guarded_loop _ (entered st)) as [r st1].
    simpl in *. exists l. split; [done|].
    eapply Forall_impl; [exact Hown|]. intros c H. exact H.
  - exists []. unfold GraphQLSubscription._create_websocket_session,
      GraphQLSubscription.async_with. rewrite Hc. simpl.
    by rewrite app_nil_r.
Qed.

(** ** The task life cycle *)

(** X10: [is_running] and [is_complete] never hold together; a
    subscription that holds a task is in exactly one of the two states,
    and one without task is in neither. *)
Theorem running_and_complete_exclude (st : GraphQLSubscription.State) :
  GraphQLSubscription.is_complete st =
  match GraphQLSubscription.task (GraphQLSubscription.self st) with
  | Some _ => negb (GraphQLSubscription.is_running st)
  | None => false
  end /\
  GraphQLSubscription.is_running st && GraphQLSubscription.is_complete st
    = false.
Proof.
  unfold GraphQLSubscription.is_complete, GraphQLSubscription.is_running.
  destruct (GraphQLSubscription.task _) as [h|]; [|done].
  by destruct (GraphQLSubscription.task_done st h),
       (GraphQLSubscription.task_cancelled st h).
Qed.

Lemma running_task (st : GraphQLSubscription.State) :
  GraphQLSubscription.is_running st = true ->
  exists h tk,
    GraphQLSubscription.task (GraphQLSubscription.self st) = Some h /\
    GraphQLSubscription.tasks st !! h = Some tk /\
    Task.done tk = false.
Proof.
  unfold GraphQLSubscription.is_running, GraphQLSubscription.task_done.
  destruct (GraphQLSubscription.task _) as [h|]; [|done].
  destruct (GraphQLSubscription.tasks st !! h) as [tk|] eqn:Hh; [|done].
  simpl. intros H. apply andb_true_iff in H as [H _].
  apply negb_true_iff in H. eauto.
Qed.

Lemma unsubscribe_running (st : GraphQLSubscription.State) (h : nat)
    (tk : Task.t) :
  GraphQLSubscription.is_running st = true ->
  GraphQLSubscription.task (GraphQLSubscription.self st) = Some h ->
  GraphQLSubscription.tasks st !! h = Some tk ->
  GraphQLSubscription.unsubscribe st =
  (Ok tt,
   GraphQLSubscription.set_task None
     (GraphQLSubscription.set_tasks
        (<[h := asked_to_cancel tk]> (GraphQLSubscription.tasks st)) st)).
Proof.
  intros Hrun Hh Htk.
  destruct (running_task st Hrun) as (h' & tk' & Hh' & Htk' & Hdone).
  rewrite Hh in Hh'. injection Hh' as <-. rewrite Htk in Htk'.
  injection Htk' as <-.
  unfold GraphQLSubscription.unsubscribe. rewrite Hrun, Hh, Htk.
  unfold Task.cancel. by rewrite Hdone.
Qed.

Lemma is_running_fresh (st : GraphQLSubscription.State) (tk : Task.t) :
  Task.status tk = Task.PENDING ->
  GraphQLSubscription.is_running
    (GraphQLSubscription.set_task
       (Some (List.length (GraphQLSubscription.tasks st)))
       (GraphQLSubscription.set_tasks
          (GraphQLSubscription.tasks st ++ [tk])%list st)) = true.
Proof.
  intros Hst. unfold GraphQLSubscription.is_running,
    GraphQLSubscription.task_done, GraphQLSubscription.task_cancelled.
  simpl. rewrite list_lookup_middle by done. simpl.
  unfold Task.done, Task.cancelled. by rewrite Hst.
Qed.

(** X11: on a running subscription, [unsubscribe] asks the task of the
    subscription, and no other task, to cancel, and clears the task of the
    subscription; it does not wait for the task to end. *)
Theorem unsubscribe_running_cancels_its_task
    (st : GraphQLSubscription.State) :
  GraphQLSubscription.is_running st = true ->
  exists h tk,
    GraphQLSubscription.task (GraphQLSubscription.self st) = Some h /\
    GraphQLSubscription.tasks st !! h = Some tk /\
    let st' := (GraphQLSubscription.unsubscribe st).2 in
    (GraphQLSubscription.unsubscribe st).1 = Ok tt /\
    GraphQLSubscription.task (GraphQLSubscription.self st') = None /\
    GraphQLSubscription.tasks st' !! h = Some (asked_to_cancel tk) /\
    Task.status (asked_to_cancel tk) = Task.status tk /\
    (forall h', h' <> h ->
       GraphQLSubscription.tasks st' !! h'
       = GraphQLSubscription.tasks st !! h').
Proof.
  intros Hrun. destruct (running_task st Hrun) as (h & tk & Hh & Htk & _).
  exists h, tk. split_and!; [done | done |].
  rewrite (unsubscribe_running st h tk Hrun Hh Htk). simpl.
  split_and!; [done | done | | done |].
  - apply list_lookup_insert_eq. by eapply lookup_lt_Some.
  - intros h' Hne. by apply list_lookup_insert_ne.
Qed.

Lemma unsubscribe_running_cancels_its_task_witness :
  let st :=
    GraphQLSubscription.set_task (Some 1)
      (GraphQLSubscription.set_tasks
         [Samples.finished_task; Samples.pending_task]
         (Samples.state0 Samples.recording)) in
  GraphQLSubscription.tasks (GraphQLSubscription.unsubscribe st).2
  = [Samples.finished_task; asked_to_cancel Samples.pending_task].
Proof.
  intros st.
  destruct (unsubscribe_running_cancels_its_task st eq_refl)
    as (h & tk & Hh & Htk & _).
  injection Hh as <-. injection Htk as <-. reflexivity.
Defined.

(** X12: [unsubscribe] never raises and always leaves the subscription
    idle: without task, neither running nor complete, with as many tasks
    in the loop as before.  Calling it again changes nothing. *)
Theorem unsubscribe_leaves_idle (st : GraphQLSubscription.State) :
  let st' := (GraphQLSubscription.unsubscribe st).2 in
  (GraphQLSubscription.unsubscribe st).1 = Ok tt /\
  GraphQLSubscription.task (GraphQLSubscription.self st') = None /\
  GraphQLSubscription.is_running st' = false /\
  GraphQLSubscription.is_complete st' = false /\
  List.length (GraphQLSubscription.tasks st')
    = List.length (GraphQLSubscription.tasks st) /\
  GraphQLSubscription.unsubscribe st' = (Ok tt, st').
Proof.
  simpl. split_and!; try reflexivity.
  unfold GraphQLSubscription.unsubscribe.
  destruct (GraphQLSubscription.is_running st); [|done].
  destruct (GraphQLSubscription.task _) as [h|]; [|done].
  destruct (GraphQLSubscription.tasks st !! h); [|done].
  simpl. apply length_insert.
Qed.

Lemma subscribe_unfold (default_session : Result ClientSession)
    (endpoint : string) (force : bool) (session : option ClientSession)
    (st : GraphQLSubscription.State) :
  GraphQLSubscription.is_running st && negb force = false ->
  GraphQLSubscription.subscribe default_session endpoint force session st =
  let st1 := (GraphQLSubscription.unsubscribe st).2 in
  match match session with
        | Some s => Ok s
        | None => default_session
        end with
  | Ok s =>
      (Ok tt,
       GraphQLSubscription.set_task
         (Some (List.length (GraphQLSubscription.tasks st1)))
         (GraphQLSubscription.set_tasks
            (GraphQLSubscription.tasks st1 ++ [new_task endpoint s])%list
            st1))
  | Raise x => (Raise x, st1)
  end.
Proof.
  intros Hgo. unfold GraphQLSubscription.subscribe. rewrite Hgo.
  unfold_M. simpl. destruct session as [s|]; [done|].
  simpl. by destruct default_session.
Qed.

(** X13: on a subscription that is not running, [subscribe] with a session
    creates exactly one task, pending and not asked to cancel, for that
    endpoint and session; it leaves the other tasks as they are, makes the
    new task the task of the subscription, and the subscription is running
    afterwards. *)
Theorem subscribe_starts_task (default_session : Result ClientSession)
    (endpoint : string) (force : bool) (s : ClientSession)
    (st : GraphQLSubscription.State) :
  GraphQLSubscription.is_running st = false ->
  let r := GraphQLSubscription.subscribe default_session endpoint force
             (Some s) st in
  r.1 = Ok tt /\
  GraphQLSubscription.tasks r.2
    = (GraphQLSubscription.tasks st ++ [new_task endpoint s])%list /\
  GraphQLSubscription.task (GraphQLSubscription.self r.2)
    = Some (List.length (GraphQLSubscription.tasks st)) /\
  GraphQLSubscription.is_running r.2 = true.
Proof.
  intros Hrun r. subst r.
  rewrite subscribe_unfold by (by rewrite Hrun).
  unfold GraphQLSubscription.unsubscribe. rewrite Hrun. simpl.
  split_and!; try done.
  exact (is_running_fresh (GraphQLSubscription.set_task None st)
           (new_task endpoint s) eq_refl).
Qed.

Lemma subscribe_starts_task_witness :
  let st :=
    GraphQLSubscription.set_task (Some 0)
      (GraphQLSubscription.set_tasks [Samples.finished_task]
         (Samples.state0 Samples.recording)) in
  let r := GraphQLSubscription.subscribe (Raise ClientConnectionError)
             "wss://host/graphql" false (Some (Samples.session0 [])) st in
  GraphQLSubscription.tasks r.2
    = [Samples.finished_task; Samples.pending_task] /\
  GraphQLSubscription.task (GraphQLSubscription.self r.2) = Some 1.
Proof.
  intros st r.
  destruct (subscribe_starts_task (Raise ClientConnectionError)
              "wss://host/graphql" false (Samples.session0 []) st eq_refl)
    as (_ & Hts & Htk & _).
  split; [exact Hts | exact Htk].
Defined.

(** X14: on a running subscription, [subscribe] with [force] asks the
    current task to cancel (its status is not changed, the task ends on
    its own), then creates a new pending task, distinct from the old one,
    and makes it the task of the subscription, which is running again. *)
Theorem subscribe_force_replaces_task
    (default_session : Result ClientSession) (endpoint : string)
    (s : ClientSession) (st : GraphQLSubscription.State) :
  GraphQLSubscription.is_running st = true ->
  exists h tk,
    GraphQLSubscription.task (GraphQLSubscription.self st) = Some h /\
    GraphQLSubscription.tasks st !! h = Some tk /\
    let r := GraphQLSubscription.subscribe default_session endpoint true
               (Some s) st in
    let h' := List.length (GraphQLSubscription.tasks st) in
    r.1 = Ok tt /\
    GraphQLSubscription.tasks r.2
      = (<[h := asked_to_cancel tk]> (GraphQLSubscription.tasks st)
         ++ [new_task endpoint s])%list /\
    GraphQLSubscription.task (GraphQLSubscription.self r.2) = Some h' /\
    h' <> h /\
    GraphQLSubscription.is_running r.2 = true.
Proof.
  intros Hrun. destruct (running_task st Hrun) as (h & tk & Hh & Htk & _).
  exists h, tk. split_and!; [done | done |]. intros r h'. subst r h'.
  rewrite subscribe_unfold by (by rewrite andb_false_r).
  rewrite (unsubscribe_running st h tk Hrun Hh Htk). simpl.
  rewrite length_insert. split_and!; try done.
  - apply lookup_lt_Some in Htk. lia.
  - pose proof (is_running_fresh
                  (GraphQLSubscription.set_task None
                     (GraphQLSubscription.set_tasks
                        (<[h := asked_to_cancel tk]>
                           (GraphQLSubscription.tasks st)) st))
                  (new_task endpoint s) eq_refl) as H.
    simpl in H. rewrite length_insert in H. exact H.
Qed.

Lemma subscribe_force_replaces_task_witness :
  let st :=
    GraphQLSubscription.set_task (Some 0)
      (GraphQLSubscription.set_tasks [Samples.pending_task]
         (Samples.state0 Samples.recording)) in
  let r := GraphQLSubscription.subscribe (Raise ClientConnectionError)
             "wss://host/graphql" true (Some (Samples.session0 [])) st in
  GraphQLSubscription.tasks r.2
    = [asked_to_cancel Samples.pending_task; Samples.pending_task] /\
  GraphQLSubscription.task (GraphQLSubscription.self r.2) = Some 1.
Proof.
  intros st r.
  destruct (subscribe_force_replaces_task (Raise ClientConnectionError)
              "wss://host/graphql" (Samples.session0 []) st eq_refl)
    as (h & tk & Hh & Htk & _ & Hts & Hnew & _).
  injection Hh as <-. injection Htk as <-.
  split; [exact Hts | exact Hnew].
Defined.

(** X15: when [subscribe] is called without a session and building the
    default one raises, the exception is raised to the caller after
    [unsubscribe] has run: no task is created, the subscription is left
    without task and not running, and a task that was running has been
    asked to cancel. *)
Theorem subscribe_failure_leaves_idle (x : Exn) (endpoint : string)
    (force : bool) (st : GraphQLSubscription.State) :
  GraphQLSubscription.is_running st && negb force = false ->
  GraphQLSubscription.subscribe (Raise x) endpoint force None st
    = (Raise x, (GraphQLSubscription.unsubscribe st).2) /\
  let st' := (GraphQLSubscription.subscribe (Raise x) endpoint force None
                st).2 in
  GraphQLSubscription.task (GraphQLSubscription.self st') = None /\
  GraphQLSubscription.is_running st' = false /\
  List.length (GraphQLSubscription.tasks st')
    = List.length (GraphQLSubscription.tasks st).
Proof.
  intros Hgo. rewrite (subscribe_unfold _ _ _ _ _ Hgo). simpl.
  split_and!; try reflexivity.
  unfold GraphQLSubscription.unsubscribe.
  destruct (GraphQLSubscription.is_running st); [|done].
  destruct (GraphQLSubscription.task _) as [h|]; [|done].
  destruct (GraphQLSubscription.tasks st !! h); [|done].
  simpl. apply length_insert.
Qed.

Lemma subscribe_failure_leaves_idle_witness :
  let st :=
    GraphQLSubscription.set_task (Some 0)
      (GraphQLSubscription.set_tasks [Samples.pending_task]
         (Samples.state0 Samples.recording)) in
  let r := GraphQLSubscription.subscribe (Raise ClientConnectionError)
             "wss://host/graphql" true None st in
  r.1 = Raise ClientConnectionError /\
  GraphQLSubscription.task (GraphQLSubscription.self r.2) = None /\
  GraphQLSubscription.tasks r.2 = [asked_to_cancel Samples.pending_task].
Proof.
  intros st r.
  pose proof (proj1 (subscribe_failure_leaves_idle ClientConnectionError
                       "wss://host/graphql" true st eq_refl)) as H.
  subst r. rewrite H. split_and!; reflexivity.
Defined.

(** X16: neither [subscribe] nor [unsubscribe] touches the id, the
    request, the registry or the stop kinds of the subscription, the calls
    the registry has received or the environment of the callbacks: they
    change the task of the subscription and the tasks of the loop only. *)
Theorem task_methods_keep_the_rest (default_session : Result ClientSession)
    (endpoint : string) (force : bool) (session : option ClientSession)
    (st st' : GraphQLSubscription.State) :
  st' = (GraphQLSubscription.unsubscribe st).2 \/
  st' = (GraphQLSubscription.subscribe default_session endpoint force
           session st).2 ->
  let s := GraphQLSubscription.self st in
  let s' := GraphQLSubscription.self st' in
  GraphQLSubscription.id s' = GraphQLSubscription.id s /\
  GraphQLSubscription.request s' = GraphQLSubscription.request s /\
  GraphQLSubscription.callbacks s' = GraphQLSubscription.callbacks s /\
  GraphQLSubscription.stop_event_types s'
    = GraphQLSubscription.stop_event_types s /\
  GraphQLSubscription.calls st' = GraphQLSubscription.calls st /\
  GraphQLSubscription.env st' = GraphQLSubscription.env st.
Proof.
  assert (Hun : forall st0,
    let s0 := GraphQLSubscription.self st0 in
    let s1 := GraphQLSubscription.self
                (GraphQLSubscription.unsubscribe st0).2 in
    GraphQLSubscription.id s1 = GraphQLSubscription.id s0 /\
    GraphQLSubscription.request s1 = GraphQLSubscription.request s0 /\
    GraphQLSubscription.callbacks s1 = GraphQLSubscription.callbacks s0 /\
    GraphQLSubscription.stop_event_types s1
      = GraphQLSubscription.stop_event_types s0 /\
    GraphQLSubscription.calls (GraphQLSubscription.unsubscribe st0).2
      = GraphQLSubscription.calls st0 /\
    GraphQLSubscription.env (GraphQLSubscription.unsubscribe st0).2
      = GraphQLSubscription.env st0).
  { intros st0. unfold GraphQLSubscription.unsubscribe. simpl.
    destruct (GraphQLSubscription.is_running st0); [|done].
    destruct (GraphQLSubscription.task _) as [h|]; [|done].
    by destruct (GraphQLSubscription.tasks st0 !! h). }
  intros [-> | ->]; [apply Hun|].
  destruct (GraphQLSubscription.is_running st && negb force) eqn:Hgo.
  - unfold GraphQLSubscription.subscribe. by rewrite Hgo.
  - rewrite (subscribe_unfold _ _ _ _ _ Hgo). simpl.
    destruct (match session with Some s => Ok s | None => default_session end);
      simpl; apply Hun.
Qed.

Lemma task_methods_keep_the_rest_witness :
  let st :=
    GraphQLSubscription.set_task (Some 0)
      (GraphQLSubscription.set_tasks [Samples.pending_task]
         (Samples.open_state Samples.recording [] [JNull])) in
  GraphQLSubscription.env (GraphQLSubscription.unsubscribe st).2
  = {| ws_state := WsOpen; sent := [JNull]; journal := [] |}.
Proof.
  intros st.
  apply (task_methods_keep_the_rest (Raise ClientConnectionError) "" false
           None st (GraphQLSubscription.unsubscribe st).2 (or_introl eq_refl)).
Defined.

(** X17: [subscribe] on an idle subscription followed by [unsubscribe]
    leaves the subscription without task and the loop with one more task
    than before, the one just created, asked to cancel. *)
Theorem subscribe_then_unsubscribe (default_session : Result ClientSession)
    (endpoint : string) (force : bool) (s : ClientSession)
    (st : GraphQLSubscription.State) :
  GraphQLSubscription.is_running st = false ->
  let st1 := (GraphQLSubscription.subscribe default_session endpoint force
                (Some s) st).2 in
  let st2 := (GraphQLSubscription.unsubscribe st1).2 in
  GraphQLSubscription.task (GraphQLSubscription.self st2) = None /\
  GraphQLSubscription.tasks st2
    = (GraphQLSubscription.tasks st
       ++ [asked_to_cancel (new_task endpoint s)])%list.
Proof.
  intros Hrun st1 st2. split; [done|]. subst st2.
  assert (Hst1 : st1 =
    GraphQLSubscription.set_task
      (Some (List.length (GraphQLSubscription.tasks st)))
      (GraphQLSubscription.set_tasks
         (GraphQLSubscription.tasks st ++ [new_task endpoint s])%list
         (GraphQLSubscription.set_task None st))).
  { subst st1. rewrite subscribe_unfold by (by rewrite Hrun).
    unfold GraphQLSubscription.unsubscribe. by rewrite Hrun. }
  assert (Hrun1 : GraphQLSubscription.is_running st1 = true).
  { rewrite Hst1.
    exact (is_running_fresh (GraphQLSubscription.set_task None st)
             (new_task endpoint s) eq_refl). }
  assert (Hlk : GraphQLSubscription.tasks st1
                  !! List.length (GraphQLSubscription.tasks st)
                = Some (new_task endpoint s)).
  { rewrite Hst1. simpl. by apply list_lookup_middle. }
  assert (Htk : GraphQLSubscription.task (GraphQLSubscription.self st1)
                = Some (List.length (GraphQLSubscription.tasks st))).
  { by rewrite Hst1. }
  rewrite (unsubscribe_running st1 _ _ Hrun1 Htk Hlk). simpl.
  rewrite Hst1. simpl.
  rewrite insert_app_r_alt by done. by rewrite Nat.sub_diag.
Qed.

Lemma subscribe_then_unsubscribe_witness :
  let st1 :=
    (GraphQLSubscription.subscribe (Raise ClientConnectionError)
       "wss://host/graphql" false (Some (Samples.session0 []))
       (Samples.state0 Samples.recording)).2 in
  GraphQLSubscription.tasks (GraphQLSubscription.unsubscribe st1).2
  = [asked_to_cancel Samples.pending_task].
Proof.
  apply (subscribe_then_unsubscribe (Raise ClientConnectionError)
           "wss://host/graphql" false (Samples.session0 [])
           (Samples.state0 Samples.recording) eq_refl).
Defined.
